(** * thoth-storages: result adapters, performance indicators, schema and
      migrations

    A shallow embedding of
    - [thoth/storages/result_base.py] (the result adapter base class),
    - [thoth/storages/buildlogs_analyses_cache.py],
    - [thoth/storages/graph/models_performance.py] ([from_report]),
    - [thoth/storages/graph/models.py] (the two package-version tables),
    - the two Alembic revisions [79e1d320db3d] and [b91c11e75551],
    together with the properties the specification states about them. *)

From stdpp Require Import gmap strings list fin_maps.

Open Scope string_scope.

(** ** Python values and exceptions *)

Module Py.

#[local] Set Warnings "-register-all".

(** JSON-compatible Python values: what [json.loads] produces.  A Python
    [dict] with string keys is a finite map (the order of insertion is not
    kept, nothing below depends on it); floats are kept as their literal,
    no arithmetic is done on them here. *)
Inductive json : Type :=
  | JNull
  | JBool (b : bool)
  | JInt (n : Z)
  | JFloat (literal : string)
  | JString (s : string)
  | JArray (items : list json)
  | JObject (fields : gmap string json).

(** The exceptions that the embedded code raises or lets through.
    [KeyError], [TypeError], [AttributeError], [ValueError] and
    [AssertionError] are Python's built-ins; [Invalid] stands for whatever
    the schema library raises, [ProgrammingError] for the database refusing
    a statement; [SchemaError] is the class imported from
    [thoth.storages.exceptions] (the specification calls it
    SchemaValidationError), its second field is the [__cause__] set by
    [raise ... from exc].  The remaining constructors are the error taxonomy
    of the specification, section 7. *)
Inductive exn : Type :=
  | KeyError (key : string)
  | TypeError
  | AttributeError (attribute : string)
  | ValueError (msg : string)
  | AssertionError (msg : string)
  | Invalid (msg : string)
  | ProgrammingError (msg : string)
  | SchemaError (msg : string) (cause : exn)
  | MalformedDocumentError
  | NotConnectedError
  | NotFoundError
  | ConnectionError
  | StorageUnavailableError
  | CanceledError.

(** A call either returns a value or raises. *)
Inductive result (A : Type) : Type :=
  | Return (a : A)
  | Raise (e : exn).
Arguments Return {A} a.
Arguments Raise {A} e.

#[export] Instance result_bind : MBind result := λ A B k r,
  match r with
  | Return a => k a
  | Raise e => Raise e
  end.

#[export] Instance result_ret : MRet result := λ A a, Return a.

Definition raises {A} (r : result A) : Prop :=
  match r with Return _ => False | Raise _ => True end.

Definition returns {A} (r : result A) : Prop :=
  match r with Return _ => True | Raise _ => False end.

(** [v[key]] for a string [key]: a dict looks the key up and raises
    [KeyError(key)] when it is missing; every other JSON value (list, str,
    numbers, bool, None) raises [TypeError] on a string subscript. *)
Definition getitem (v : json) (key : string) : result json :=
  match v with
  | JObject fields =>
      match fields !! key with
      | Some x => Return x
      | None => Raise (KeyError key)
      end
  | _ => Raise TypeError
  end.

(** [v.items()]: only a dict has the method. *)
Definition items (v : json) : result (list (string * json)) :=
  match v with
  | JObject fields => Return (map_to_list fields)
  | _ => Raise (AttributeError "items")
  end.

End Py.

Import Py.


(** ** The blob store behind the adapters *)

Module Ceph.

(** Connection options of [CephStore]; each one is optional. *)
Record options : Type := Options {
  host : option string;
  key_id : option string;
  secret_key : option string;
  bucket : option string;
  region : option string
}.

(** Modelled from the spec: [thoth/storages/ceph.py] (class [CephStore]) is
    not among the sources.  Section 6 of the specification gives the blob
    store as namespaced key/value operations [put(namespace, key, bytes)],
    [get(namespace, key)], [exists(namespace, key)], [list(namespace)];
    section 4.1 gives the session: operations before [connect] fail with
    NotConnectedError, [connect] fails with ConnectionError when the
    endpoint or the credentials are refused, a read of an absent key fails
    with NotFoundError, a write overwrites whatever is at the key. *)
Record CephStore : Type := {
  prefix : string;
  opts : options;
  session : bool
}.

(** The content of the bucket the adapters point at: the blob stored at
    each (namespace, key). *)
Abbreviation blobs := (gmap (string * string) json).

(** What the store needs from outside.  [format_key] is the text of a
    document id inside an object key (the adapter passes on whatever value
    it derived); [endpoint_accepts] tells whether the endpoint can be
    reached with the given options. *)
Class Endpoint : Type := {
  format_key : json -> string;
  endpoint_accepts : options -> bool
}.

(** Modelled from the spec: the constructor of [CephStore]; it records the
    namespace and the options, no session is open yet. *)
Definition new (result_type : string) (o : options) : CephStore :=
  {| prefix := result_type; opts := o; session := false |}.

Definition is_connected (c : CephStore) : bool := session c.

(** Modelled from the spec: [connect()], section 4.1. *)
Definition connect `{Endpoint} (c : CephStore) : result CephStore :=
  if endpoint_accepts (opts c)
  then Return {| prefix := prefix c; opts := opts c; session := true |}
  else Raise ConnectionError.

(** Modelled from the spec: a key is composed of the result-type namespace
    and the document id. *)
Definition object_key `{Endpoint} (c : CephStore) (document_id : json)
  : string * string :=
  (prefix c, format_key document_id).

(** Modelled from the spec: [put], last write wins. *)
Definition store_document `{Endpoint} (c : CephStore)
    (document document_id : json) (s : blobs) : result unit * blobs :=
  if is_connected c
  then (Return tt, <[object_key c document_id := document]> s)
  else (Raise NotConnectedError, s).

(** Modelled from the spec: [get], NotFoundError on an absent key. *)
Definition retrieve_document `{Endpoint} (c : CephStore)
    (document_id : json) (s : blobs) : result json :=
  if is_connected c
  then match s !! object_key c document_id with
       | Some document => Return document
       | None => Raise NotFoundError
       end
  else Raise NotConnectedError.

(** Modelled from the spec: [exists], no parse. *)
Definition document_exists `{Endpoint} (c : CephStore)
    (document_id : json) (s : blobs) : result bool :=
  if is_connected c
  then Return (bool_decide (is_Some (s !! object_key c document_id)))
  else Raise NotConnectedError.

(** Modelled from the spec: [list], the keys of one namespace; the order
    of a listing is the store's own, so the listing is a set. *)
Definition get_document_listing (c : CephStore) (s : blobs)
  : result (gset string) :=
  if is_connected c
  then Return (set_map snd (filter (λ k, k.1 = prefix c) (dom s)))
  else Raise NotConnectedError.

End Ceph.

(** ** [thoth/storages/result_base.py] *)

Module ResultStorage.

(** [RESULT_SCHEMA] is a parameter: [thoth/storages/result_schema.py] is not
    among the sources, and the schema is pluggable.  Calling the schema
    returns the validated document or raises. *)
Class Schema : Type := {
  RESULT_SCHEMA : json -> result json
}.

(** An adapter class: what a subclass of [ResultStorageBase] may set. *)
Record adapter_class : Type := {
  class_name : string;
  RESULT_TYPE : option string
}.

Definition ResultStorageBase : adapter_class :=
  {| class_name := "ResultStorageBase"; RESULT_TYPE := None |}.

(** [buildlogs_analyses_cache.py]: the class only sets [RESULT_TYPE]. *)
Definition BuildLogsAnalysesCacheStore : adapter_class :=
  {| class_name := "BuildLogsAnalysesCacheStore";
     RESULT_TYPE := Some "buildlogs-analysis-cache" |}.

(** An adapter instance: [self.ceph]. *)
Record adapter : Type := {
  cls : adapter_class;
  ceph : Ceph.CephStore
}.

Definition RESULT_TYPE_undefined : string :=
  "Make sure you define RESULT_TYPE in derived classes to distinguish between adapter type instances.".

(** [__init__(self, *, host, key_id, secret_key, bucket, region)] *)
Definition __init__ (c : adapter_class) (o : Ceph.options) : result adapter :=
  match RESULT_TYPE c with
  | None => Raise (AssertionError RESULT_TYPE_undefined)
  | Some result_type =>
      Return {| cls := c; ceph := Ceph.new result_type o |}
  end.

(** [get_document_id(cls, document)]:
    [return document['metadata']['hostname']] *)
Definition get_document_id (document : json) : result json :=
  metadata ← getitem document "metadata";
  getitem metadata "hostname".

(** The document has the field path [metadata.hostname]. *)
Definition has_hostname (document : json) : bool :=
  match document with
  | JObject fields =>
      match fields !! "metadata" with
      | Some (JObject metadata) => bool_decide (is_Some (metadata !! "hostname"))
      | _ => false
      end
  | _ => false
  end.

Definition is_connected (self : adapter) : bool :=
  Ceph.is_connected (ceph self).

Definition connect `{Ceph.Endpoint} (self : adapter) : result adapter :=
  c ← Ceph.connect (ceph self);
  mret {| cls := cls self; ceph := c |}.

Definition get_document_listing (self : adapter) (s : Ceph.blobs)
  : result (gset string) :=
  Ceph.get_document_listing (ceph self) s.

(** [store_document(self, document)]: the schema call is inside [try];
    every exception it raises becomes a [SchemaError] whose cause it is. *)
Definition store_document `{Schema} `{Ceph.Endpoint} (self : adapter)
    (document : json) (s : Ceph.blobs) : result json * Ceph.blobs :=
  match RESULT_SCHEMA document with
  | Raise exc =>
      (Raise (SchemaError "Failed to validate document schema" exc), s)
  | Return _ =>
      match get_document_id document with
      | Raise e => (Raise e, s)
      | Return document_id =>
          match Ceph.store_document (ceph self) document document_id s with
          | (Raise e, s') => (Raise e, s')
          | (Return _, s') => (Return document_id, s')
          end
      end
  end.

Definition retrieve_document `{Ceph.Endpoint} (self : adapter)
    (document_id : json) (s : Ceph.blobs) : result json :=
  Ceph.retrieve_document (ceph self) document_id s.

(** A client calling [store_document] on one document after the other;
    the blob store after the last call. *)
Fixpoint store_documents `{Schema} `{Ceph.Endpoint} (self : adapter)
    (documents : list json) (s : Ceph.blobs) : Ceph.blobs :=
  match documents with
  | [] => s
  | document :: rest =>
      store_documents self rest (store_document self document s).2
  end.

(** Modelled from the spec: [documentExists] of section 4.1; the method is
    not in [result_base.py], the adapters get it from [ceph_cache.py], which
    is not among the sources. *)
Definition document_exists `{Ceph.Endpoint} (self : adapter)
    (document_id : json) (s : Ceph.blobs) : result bool :=
  Ceph.document_exists (ceph self) document_id s.

End ResultStorage.

(** ** [thoth/storages/graph/models_performance.py] *)

Module Performance.

Abbreviation kwargs := (gmap string json).

(** First loop of [from_report]: [kwargs[parameter] = parameter_value]. *)
Fixpoint copy_parameters (parameters : list (string * json)) (kw : kwargs)
  : kwargs :=
  match parameters with
  | [] => kw
  | (parameter, parameter_value) :: rest =>
      copy_parameters rest (<[parameter := parameter_value]> kw)
  end.

Definition collision : string := "Collision in result name and parameter name".

(** Second loop: [if result_name in kwargs: raise ValueError(...)], then
    [kwargs[result_name] = result_value]. *)
Fixpoint add_results (results : list (string * json)) (kw : kwargs)
  : result kwargs :=
  match results with
  | [] => Return kw
  | (result_name, result_value) :: rest =>
      if decide (is_Some (kw !! result_name))
      then Raise (ValueError collision)
      else add_results rest (<[result_name := result_value]> kw)
  end.

Section FromReport.

(** The database session that [get_or_create] works on, and the model it
    gives back. *)
Context {Session Model : Type}.

(** [partial_model] is [functools.partial(cls.get_or_create, session, ...)]
    as [create_from_report] builds it: called with keyword arguments it
    returns a model or raises, and may change the session. *)
Definition partial := kwargs -> Session -> result Model * Session.

(** [from_report(cls, inspection_document, partial_model)] *)
Definition from_report (inspection_document : json) (partial_model : partial)
    (db : Session) : result Model * Session :=
  let built :=
    job_log ← getitem inspection_document "job_log";
    stdout ← getitem job_log "stdout";
    parameters ← getitem stdout "@parameters";
    parameter_items ← items parameters;
    let kw := copy_parameters parameter_items ∅ in
    job_log ← getitem inspection_document "job_log";
    stdout ← getitem job_log "stdout";
    results ← getitem stdout "@result";
    result_items ← items results;
    add_results result_items kw in
  match built with
  | Raise e => (Raise e, db)
  | Return kw => partial_model kw db
  end.

End FromReport.

End Performance.

(** ** [thoth/storages/graph/models.py]: the two package-version tables *)

Module Models.

Record Column : Type := {
  name : string;
  nullable : bool;
  primary_key : bool;
  unique : bool
}.

(** The entries of [__table_args__]; [Index(...)] is not unique unless it
    says so. *)
Inductive table_arg : Type :=
  | UniqueConstraint (columns : list string)
  | Index (index_name : string) (columns : list string) (is_unique : bool).

Record Table : Type := {
  __tablename__ : string;
  columns : list Column;
  __table_args__ : list table_arg
}.

(** [get_python_package_version_index_combinations] comes from
    [models_base.py], which is not among the sources: a parameter. *)
Class ModelsBase : Type := {
  get_python_package_version_index_combinations : bool -> list table_arg
}.

Definition col (n : string) (null : bool) : Column :=
  {| name := n; nullable := null; primary_key := false; unique := false |}.

Definition package_version_key : list string :=
  ["package_name"; "package_version"; "python_package_index_id";
   "os_name"; "os_version"; "python_version"].

Definition package_version_entity_key : list string :=
  ["package_name"; "package_version"; "python_package_index_id"].

Definition PythonPackageVersion `{ModelsBase} : Table := {|
  __tablename__ := "python_package_version";
  columns := [
    {| name := "id"; nullable := false; primary_key := true; unique := false |};
    col "package_name" false;
    col "package_version" true;
    col "os_name" false;
    col "os_version" false;
    col "python_version" false;
    col "entity_id" false;
    col "python_package_index_id" true;
    col "python_package_metadata_id" true ];
  __table_args__ :=
    get_python_package_version_index_combinations false
    ++ [ UniqueConstraint
           ["package_name"; "package_version"; "python_package_index_id";
            "os_name"; "os_version"; "python_version"];
         Index "python_package_version_idx"
           ["package_name"; "package_version"; "python_package_index_id"]
           false ]
|}.

Definition PythonPackageVersionEntity : Table := {|
  __tablename__ := "python_package_version_entity";
  columns := [
    {| name := "id"; nullable := false; primary_key := true; unique := true |};
    col "package_name" false;
    col "package_version" true;
    col "python_package_index_id" true ];
  __table_args__ :=
    [ UniqueConstraint
        ["package_name"; "package_version"; "python_package_index_id"];
      Index "python_package_version_entity_idx"
        ["package_name"; "package_version"; "python_package_index_id"]
        true ]
|}.

(** *** What the declarations mean for the rows of a table

    The rules are the database's (PostgreSQL, the dialect [models.py]
    imports).  A row gives each column a value or NULL; NULL is the absence
    of an entry. *)
Inductive value : Type :=
  | VInt (n : Z)
  | VStr (s : string).

#[export] Instance value_eq_dec : EqDecision value.
Proof. solve_decision. Defined.

Abbreviation row := (gmap string value).

(** The values of a row on a tuple of columns. *)
Definition key_of (cols : list string) (r : row) : list (option value) :=
  (λ c, r !! c) <$> cols.

Definition has_null (k : list (option value)) : bool :=
  existsb (λ v, match v with None => true | Some _ => false end) k.

(** UNIQUE: no two rows have the same values on the columns, where a key
    holding a NULL equals no other key. *)
Fixpoint distinct_keys (ks : list (list (option value))) : bool :=
  match ks with
  | [] => true
  | k :: rest =>
      (has_null k || negb (bool_decide (k ∈ rest))) && distinct_keys rest
  end.

Definition unique_on (cols : list string) (rows : list row) : bool :=
  distinct_keys (key_of cols <$> rows).

(** NOT NULL, and PRIMARY KEY (which is NOT NULL and UNIQUE), and
    [unique=True] on a column. *)
Definition column_holds (rows : list row) (c : Column) : bool :=
  (nullable c && negb (primary_key c)
   || forallb (λ r, bool_decide (is_Some (r !! name c))) rows)
  && (negb (primary_key c || unique c) || unique_on [name c] rows).

Definition table_arg_holds (rows : list row) (a : table_arg) : bool :=
  match a with
  | UniqueConstraint cols => unique_on cols rows
  | Index _ cols true => unique_on cols rows
  | Index _ _ false => true
  end.

(** The rows a table with these declarations can hold. *)
Definition admits (t : Table) (rows : list row) : bool :=
  forallb (column_holds rows) (columns t)
  && forallb (table_arg_holds rows) (__table_args__ t).

Definition is_unique_constraint (a : table_arg) : bool :=
  match a with UniqueConstraint _ => true | Index _ _ _ => false end.

End Models.

(** ** The Alembic revisions *)

Module Alembic.

(** An index of the schema: its table, its columns, whether it is unique. *)
Record index : Type := {
  table : string;
  on_columns : list string;
  unique : bool
}.

(** The indexes of the schema, by name. *)
Abbreviation indexes := (gmap string index).

(** The two operations the revisions use. *)
Inductive operation : Type :=
  | create_index (index_name table_name : string) (columns : list string)
      (unique : bool)
  | drop_index (index_name table_name : string).

(** [op.create_index] fails when the name is taken, [op.drop_index] when
    there is no such index (PostgreSQL's DROP INDEX goes by the name). *)
Definition apply (o : operation) (s : indexes) : result indexes :=
  match o with
  | create_index n t cols u =>
      match s !! n with
      | Some _ => Raise (ProgrammingError n)
      | None =>
          Return (<[n := {| table := t; on_columns := cols; unique := u |}]> s)
      end
  | drop_index n _ =>
      match s !! n with
      | Some _ => Return (delete n s)
      | None => Raise (ProgrammingError n)
      end
  end.

(** The index an operation names. *)
Definition target (o : operation) : string :=
  match o with
  | create_index n _ _ _ => n
  | drop_index n _ => n
  end.

(** The body of [upgrade()] or [downgrade()]: the operations in order. *)
Fixpoint run (ops : list operation) (s : indexes) : result indexes :=
  match ops with
  | [] => Return s
  | o :: rest => s' ← apply o s; run rest s'
  end.

End Alembic.

(** [79e1d320db3d_create_index_for_get_depends_on_query.py] *)
Module Rev_79e1d320db3d.
Import Alembic.

Definition upgrade : list operation :=
  [ create_index "depends_on_version_id_idx" "depends_on" ["version_id"] false ].

Definition downgrade : list operation :=
  [ drop_index "depends_on_version_id_idx" "depends_on" ].

End Rev_79e1d320db3d.

(** [b91c11e75551_recreate_indexes_for_python_package_.py] *)
Module Rev_b91c11e75551.
Import Alembic.

Definition ppv : string := "python_package_version".
Definition idx (suffix : string) : string := "python_package_version_index_idx_" ++ suffix.
Definition pn : string := "package_name".
Definition pv : string := "package_version".
Definition ix : string := "python_package_index_id".
Definition osn : string := "os_name".
Definition osv : string := "os_version".
Definition pyv : string := "python_version".

Definition upgrade : list operation :=
  [ create_index (idx "00") ppv [pn; pv] false;
    drop_index (idx "10") ppv;
    create_index (idx "10") ppv [pn; pv; osn] false;
    drop_index (idx "11") ppv;
    create_index (idx "11") ppv [pn; pv; osv] false;
    drop_index (idx "12") ppv;
    create_index (idx "12") ppv [pn; pv; pyv] false;
    drop_index (idx "20") ppv;
    create_index (idx "20") ppv [pn; pv; osn; osv] false;
    drop_index (idx "21") ppv;
    create_index (idx "21") ppv [pn; pv; osn; pyv] false;
    drop_index (idx "22") ppv;
    create_index (idx "22") ppv [pn; pv; osv; pyv] false;
    drop_index (idx "30") ppv;
    create_index (idx "30") ppv [pn; pv; osn; osv; pyv] false;
    drop_index "python_package_version_idx" ppv;
    drop_index (idx "13") ppv;
    drop_index (idx "23") ppv;
    drop_index (idx "24") ppv;
    drop_index (idx "25") ppv;
    drop_index (idx "31") ppv;
    drop_index (idx "32") ppv;
    drop_index (idx "33") ppv ].

Definition downgrade : list operation :=
  [ create_index (idx "33") ppv [pn; pv; ix; osn; osv; pyv] false;
    create_index (idx "32") ppv [pn; pv; ix; ix; osv; pyv] false;
    create_index (idx "31") ppv [pn; pv; ix; ix; osn; pyv] false;
    create_index (idx "25") ppv [pn; pv; ix; osv; pyv] false;
    create_index (idx "24") ppv [pn; pv; ix; osn; pyv] false;
    create_index (idx "23") ppv [pn; pv; ix; osn; osv] false;
    create_index (idx "13") ppv [pn; pv; ix; pyv] false;
    create_index "python_package_version_idx" ppv [pn; pv; ix] false;
    drop_index (idx "30") ppv;
    create_index (idx "30") ppv [pn; pv; ix; ix; osn; osv] false;
    drop_index (idx "22") ppv;
    create_index (idx "22") ppv [pn; pv; ix; ix; pyv] false;
    drop_index (idx "21") ppv;
    create_index (idx "21") ppv [pn; pv; ix; ix; osv] false;
    drop_index (idx "20") ppv;
    create_index (idx "20") ppv [pn; pv; ix; ix; osn] false;
    drop_index (idx "12") ppv;
    create_index (idx "12") ppv [pn; pv; ix; osv] false;
    drop_index (idx "11") ppv;
    create_index (idx "11") ppv [pn; pv; ix; osn] false;
    drop_index (idx "10") ppv;
    create_index (idx "10") ppv [pn; pv; ix; ix] false;
    drop_index (idx "00") ppv ].

Definition plain (columns : list string) : index :=
  {| table := ppv; on_columns := columns; unique := false |}.

(** The indexes that [upgrade()] drops, as [downgrade()] defines them: the
    schema of the revision below this one, on the names this revision
    touches. *)
Definition before : indexes :=
  list_to_map
    [ (idx "33", plain [pn; pv; ix; osn; osv; pyv]);
      (idx "32", plain [pn; pv; ix; ix; osv; pyv]);
      (idx "31", plain [pn; pv; ix; ix; osn; pyv]);
      (idx "25", plain [pn; pv; ix; osv; pyv]);
      (idx "24", plain [pn; pv; ix; osn; pyv]);
      (idx "23", plain [pn; pv; ix; osn; osv]);
      (idx "13", plain [pn; pv; ix; pyv]);
      ("python_package_version_idx", plain [pn; pv; ix]);
      (idx "30", plain [pn; pv; ix; ix; osn; osv]);
      (idx "22", plain [pn; pv; ix; ix; pyv]);
      (idx "21", plain [pn; pv; ix; ix; osv]);
      (idx "20", plain [pn; pv; ix; ix; osn]);
      (idx "12", plain [pn; pv; ix; osv]);
      (idx "11", plain [pn; pv; ix; osn]);
      (idx "10", plain [pn; pv; ix; ix]) ].

(** The indexes that [upgrade()] leaves on these names. *)
Definition after : indexes :=
  list_to_map
    [ (idx "00", plain [pn; pv]);
      (idx "10", plain [pn; pv; osn]);
      (idx "11", plain [pn; pv; osv]);
      (idx "12", plain [pn; pv; pyv]);
      (idx "20", plain [pn; pv; osn; osv]);
      (idx "21", plain [pn; pv; osn; pyv]);
      (idx "22", plain [pn; pv; osv; pyv]);
      (idx "30", plain [pn; pv; osn; osv; pyv]) ].

End Rev_b91c11e75551.

(** ** What a revision needs and what it leaves *)

Module Migration.
Import Alembic.

#[global] Instance index_eq_dec : EqDecision index.
Proof. solve_decision. Defined.

#[global] Instance exn_eq_dec : EqDecision exn.
Proof. solve_decision. Defined.

#[global] Instance result_eq_dec {A} `{EqDecision A} : EqDecision (result A).
Proof. solve_decision. Defined.

(** A summary of a run of operations.  [needs] gives, for each index name
    the run looks at before touching it, whether the index has to exist
    when the run starts; [leaves] gives, for each name the run touches, the
    definition at the end ([None]: no such index). *)
Record summary : Type := {
  needs : gmap string bool;
  leaves : gmap string (option index)
}.

#[global] Instance summary_eq_dec : EqDecision summary.
Proof. solve_decision. Defined.

Definition nothing : summary := {| needs := ∅; leaves := ∅ |}.

(** Reads the operations in order; [None] when an operation fails on every
    schema (it creates an index the run has just created, or drops one it
    has just dropped). *)
Fixpoint summarize (ops : list operation) (acc : summary) : option summary :=
  match ops with
  | [] => Some acc
  | create_index n t cols u :: rest =>
      let created := Some {| table := t; on_columns := cols; unique := u |} in
      match leaves acc !! n with
      | Some (Some _) => None
      | Some None =>
          summarize rest
            {| needs := needs acc; leaves := <[n := created]> (leaves acc) |}
      | None =>
          summarize rest
            {| needs := <[n := false]> (needs acc);
               leaves := <[n := created]> (leaves acc) |}
      end
  | drop_index n _ :: rest =>
      match leaves acc !! n with
      | Some (Some _) =>
          summarize rest
            {| needs := needs acc; leaves := <[n := None]> (leaves acc) |}
      | Some None => None
      | None =>
          summarize rest
            {| needs := <[n := true]> (needs acc);
               leaves := <[n := None]> (leaves acc) |}
      end
  end.

(** The schema has an index of that name. *)
Definition present (s : indexes) (n : string) : bool :=
  bool_decide (is_Some (s !! n)).

(** The schema is one the run can start from. *)
Definition meets (s : indexes) (required : gmap string bool) : Prop :=
  map_Forall (λ n b, present s n = b) required.

(** The schema [s] after the changes recorded in [changes]. *)
Definition patched (changes : gmap string (option index)) (s : indexes)
    (n : string) : option index :=
  match changes !! n with
  | Some definition => definition
  | None => s !! n
  end.

(** The summary so far describes the schema [s] reached from [s0]. *)
Definition tracks (acc : summary) (s0 s : indexes) : Prop :=
  (∀ n, s !! n = patched (leaves acc) s0 n)
  ∧ (∀ n, is_Some (needs acc !! n) → is_Some (leaves acc !! n)).

(** The needs and the changes of a run that replaces the indexes [old] by
    the indexes [new]: every index of [old] has to exist, every name that
    only [new] has must be free. *)
Definition expects (new old : indexes) : gmap string bool :=
  ((λ _, true) <$> old) ∪ ((λ _, false) <$> new ∖ old).

Definition replaces (new old : indexes) : gmap string (option index) :=
  (Some <$> new) ∪ ((λ _, None) <$> old).

Definition replacing (new old : indexes) : summary :=
  {| needs := expects new old; leaves := replaces new old |}.

(** The index that revision [79e1d320db3d] creates. *)
Definition depends_on_version_id_idx : indexes :=
  {[ "depends_on_version_id_idx" :=
       {| table := "depends_on"; on_columns := ["version_id"];
          unique := false |} ]}.

(** The indexes that [upgrade()] of revision [b91c11e75551] drops and does
    not create again. *)
Definition dropped_for_good : list string :=
  [ "python_package_version_idx";
    Rev_b91c11e75551.idx "13"; Rev_b91c11e75551.idx "23";
    Rev_b91c11e75551.idx "24"; Rev_b91c11e75551.idx "25";
    Rev_b91c11e75551.idx "31"; Rev_b91c11e75551.idx "32";
    Rev_b91c11e75551.idx "33" ].

End Migration.

(** ** [create_from_report] of [models_performance.py] *)

Module PerformanceIndicator.
Import Performance.

(** The truth value of a float is a parameter: it is that of the number its
    literal denotes. *)
Class PyFloat : Type := {
  float_truth : string -> bool
}.

(** [bool(v)], as [not v] and [v or w] take it: [None], [False], zero, the
    empty string, list and dict are false. *)
Definition truthy `{PyFloat} (v : json) : bool :=
  match v with
  | JNull => false
  | JBool b => b
  | JInt n => negb (n =? 0)%Z
  | JFloat literal => float_truth literal
  | JString s => negb (String.eqb s "")
  | JArray items => match items with [] => false | _ :: _ => true end
  | JObject fields =>
      match map_to_list fields with [] => false | _ :: _ => true end
  end.

(** [v.get(key, default)]: only a dict has the method. *)
Definition dict_get (v : json) (key : string) (default : json) : result json :=
  match v with
  | JObject fields =>
      Return (match fields !! key with Some x => x | None => default end)
  | _ => Raise (AttributeError "get")
  end.

(** [inspection_document["job_log"].get("usage", {}).get(field)] *)
Definition usage (inspection_document : json) (field : string) : result json :=
  job_log ← getitem inspection_document "job_log";
  usage ← dict_get job_log "usage" (JObject ∅);
  dict_get usage field JNull.

(** What [usage] gives on a report whose [job_log] is the dict [J]. *)
Definition usage_value (J : gmap string json) (field : string) : result json :=
  match J !! "usage" with
  | None => Return JNull
  | Some (JObject U) => Return (default JNull (U !! field))
  | Some _ => Raise (AttributeError "get")
  end.

(** The keyword arguments of the [partial(cls.get_or_create, session, ...)]
    call, evaluated from left to right. *)
Definition keywords `{PyFloat} (inspection_document : json)
    (inspection_run_id : Z) (framework overall_score : json) : result kwargs :=
  specification ← getitem inspection_document "specification";
  origin ← getitem specification "script";
  job_log ← getitem inspection_document "job_log";
  stdout ← getitem job_log "stdout";
  version ← dict_get stdout "version" JNull;
  version ← (if truthy version then Return version
              else job_log ← getitem inspection_document "job_log";
                   getitem job_log "script_sha256");
  job_log ← getitem inspection_document "job_log";
  exit_code ← dict_get job_log "exit_code" JNull;
  ru_utime ← usage inspection_document "ru_utime";
  ru_stime ← usage inspection_document "ru_stime";
  ru_maxrss ← usage inspection_document "ru_maxrss";
  ru_ixrss ← usage inspection_document "ru_ixrss";
  ru_idrss ← usage inspection_document "ru_idrss";
  ru_isrss ← usage inspection_document "ru_isrss";
  ru_minflt ← usage inspection_document "ru_minflt";
  ru_majflt ← usage inspection_document "ru_majflt";
  ru_nswap ← usage inspection_document "ru_nswap";
  ru_inblock ← usage inspection_document "ru_inblock";
  ru_oublock ← usage inspection_document "ru_oublock";
  ru_msgsnd ← usage inspection_document "ru_msgsnd";
  ru_msgrcv ← usage inspection_document "ru_msgrcv";
  ru_nsignals ← usage inspection_document "ru_nsignals";
  ru_nvcsw ← usage inspection_document "ru_nvcsw";
  ru_nivcsw ← usage inspection_document "ru_nivcsw";
  Return (list_to_map
    [ ("inspection_run_id", JInt inspection_run_id);
      ("framework", framework);
      ("origin", origin);
      ("version", version);
      ("overall_score", overall_score);
      ("exit_code", exit_code);
      ("ru_utime", ru_utime);
      ("ru_stime", ru_stime);
      ("ru_maxrss", ru_maxrss);
      ("ru_ixrss", ru_ixrss);
      ("ru_idrss", ru_idrss);
      ("ru_isrss", ru_isrss);
      ("ru_minflt", ru_minflt);
      ("ru_majflt", ru_majflt);
      ("ru_nswap", ru_nswap);
      ("ru_inblock", ru_inblock);
      ("ru_oublock", ru_oublock);
      ("ru_msgsnd", ru_msgsnd);
      ("ru_msgrcv", ru_msgrcv);
      ("ru_nsignals", ru_nsignals);
      ("ru_nvcsw", ru_nvcsw);
      ("ru_nivcsw", ru_nivcsw) ]).

(** The preset keywords, once their values are known. *)
Definition preset_of (inspection_run_id : Z)
    (framework origin version overall_score exit_code : json)
    (ru : string -> json) : kwargs :=
  list_to_map
    [ ("inspection_run_id", JInt inspection_run_id);
      ("framework", framework);
      ("origin", origin);
      ("version", version);
      ("overall_score", overall_score);
      ("exit_code", exit_code);
      ("ru_utime", ru "ru_utime");
      ("ru_stime", ru "ru_stime");
      ("ru_maxrss", ru "ru_maxrss");
      ("ru_ixrss", ru "ru_ixrss");
      ("ru_idrss", ru "ru_idrss");
      ("ru_isrss", ru "ru_isrss");
      ("ru_minflt", ru "ru_minflt");
      ("ru_majflt", ru "ru_majflt");
      ("ru_nswap", ru "ru_nswap");
      ("ru_inblock", ru "ru_inblock");
      ("ru_oublock", ru "ru_oublock");
      ("ru_msgsnd", ru "ru_msgsnd");
      ("ru_msgrcv", ru "ru_msgrcv");
      ("ru_nsignals", ru "ru_nsignals");
      ("ru_nvcsw", ru "ru_nvcsw");
      ("ru_nivcsw", ru "ru_nivcsw") ].

(** The [ru_*] values of a report whose [job_log] is the dict [J]. *)
Definition usage_values (J : gmap string json) : result (string -> json) :=
  match J !! "usage" with
  | None => Return (λ _, JNull)
  | Some (JObject U) => Return (λ field, default JNull (U !! field))
  | Some _ => Raise (AttributeError "get")
  end.

(** The [ru_*] fields, in the order of the call. *)
Definition ru_fields : list string :=
  [ "ru_utime"; "ru_stime"; "ru_maxrss"; "ru_ixrss"; "ru_idrss"; "ru_isrss";
    "ru_minflt"; "ru_majflt"; "ru_nswap"; "ru_inblock"; "ru_oublock";
    "ru_msgsnd"; "ru_msgrcv"; "ru_nsignals"; "ru_nvcsw"; "ru_nivcsw" ].

(** A record of [_LOGGER.warning(message, argument)]. *)
Definition warning : Type := string * json.

Definition no_framework : string :=
  "No machine learning framework specified in performance indicator %r".

Definition no_overall_score : string :=
  "No overall score detected in performance indicator %r".

Section CreateFromReport.
Context `{PyFloat} {Session Model : Type}.

(** [cls.get_or_create] on the session, a parameter ([models_base.py] is
    not among the sources): given keyword arguments it returns a model or
    raises, and may change the session. *)
Definition get_or_create_t := kwargs -> Session -> result Model * Session.

(** Calling [functools.partial(cls.get_or_create, session, ...)] with
    keywords passes [get_or_create] the preset keywords updated with those
    of the call: a keyword of the call replaces the preset one of the same
    name.  [cls] is bound and [session] was given by position, so a keyword
    of the call named [cls] or [session] is a second value for that
    parameter: the call raises [TypeError] and [get_or_create] does not
    run. *)
Definition partial_call (get_or_create : get_or_create_t) (preset : kwargs)
  : @partial Session Model :=
  λ kw db,
    if decide (is_Some (kw !! "session") ∨ is_Some (kw !! "cls"))
    then (Raise TypeError, db)
    else get_or_create (kw ∪ preset) db.

(** [create_from_report(cls, session, inspection_document,
    inspection_run_id)]; the third component is what was logged. *)
Definition create_from_report (cls_name : string)
    (get_or_create : get_or_create_t) (session : Session)
    (inspection_document : json) (inspection_run_id : Z)
  : result Model * Session * list warning :=
  match (job_log ← getitem inspection_document "job_log";
         stdout ← getitem job_log "stdout";
         dict_get stdout "framework" JNull) with
  | Raise e => (Raise e, session, [])
  | Return framework =>
      let log :=
        if truthy framework then []
        else [(no_framework, JString cls_name)] in
      match (job_log ← getitem inspection_document "job_log";
             stdout ← getitem job_log "stdout";
             dict_get stdout "overall_score" JNull) with
      | Raise e => (Raise e, session, log)
      | Return overall_score =>
          let log :=
            (log ++ match overall_score with
                    | JNull => [(no_overall_score, overall_score)]
                    | _ => []
                    end)%list in
          match keywords inspection_document inspection_run_id
                  framework overall_score with
          | Raise e => (Raise e, session, log)
          | Return preset =>
              (from_report inspection_document
                 (partial_call get_or_create preset) session, log)
          end
      end
  end.

End CreateFromReport.

End PerformanceIndicator.

(** ** [models.py]: three tables whose unique columns are all NOT NULL *)

Module MoreModels.
Import Models.

Definition key_column : Column :=
  {| name := "id"; nullable := false; primary_key := true; unique := false |}.

Definition ecosystem_solver_key : list string :=
  ["ecosystem"; "solver_name"; "solver_version";
   "os_name"; "os_version"; "python_version"].

Definition EcosystemSolver : Table := {|
  __tablename__ := "ecosystem_solver";
  columns := [
    key_column;
    col "ecosystem" false;
    col "solver_name" false;
    col "solver_version" false;
    col "os_name" false;
    col "os_version" false;
    col "python_version" false ];
  __table_args__ :=
    [ UniqueConstraint
        ["ecosystem"; "solver_name"; "solver_version";
         "os_name"; "os_version"; "python_version"];
      Index "ecosystem_solver_idx"
        ["ecosystem"; "solver_name"; "solver_version";
         "os_name"; "os_version"; "python_version"]
        true ]
|}.

Definition PythonFileDigest : Table := {|
  __tablename__ := "python_file_digest";
  columns := [ key_column; col "sha256" false ];
  __table_args__ :=
    [ UniqueConstraint ["sha256"]; Index "sha256_idx" ["sha256"] true ]
|}.

(** [enabled] has no [nullable=]: a column that is not a primary key is
    nullable unless it says otherwise. *)
Definition PythonPackageIndex : Table := {|
  __tablename__ := "python_package_index";
  columns := [
    key_column;
    col "url" false;
    col "warehouse_api_url" true;
    col "verify_ssl" false;
    col "enabled" true ];
  __table_args__ :=
    [ UniqueConstraint ["url"]; Index "url_idx" ["url"] true ]
|}.

(** Every column of the tuple is declared NOT NULL in the table. *)
Definition all_not_null (t : Table) (cols : list string) : bool :=
  forallb
    (λ c, existsb (λ column, String.eqb (name column) c && negb (nullable column))
            (columns t))
    cols.

End MoreModels.

(** ** Sample parameters, documents and adapters *)

Module Sample.
Import ResultStorage.

(** A schema that accepts every document. *)
Definition any_schema : Schema := {| RESULT_SCHEMA := λ d, Return d |}.

(** A schema requiring only [metadata.hostname], a string. *)
Definition hostname_schema : Schema := {|
  RESULT_SCHEMA := λ d,
    match get_document_id d with
    | Return (JString _) => Return d
    | _ => Raise (Invalid "required key not provided @ data['metadata']['hostname']")
    end
|}.

(** An endpoint that accepts every connection; a string id is its own
    key text. *)
Definition endpoint : Ceph.Endpoint := {|
  Ceph.format_key := λ v, match v with JString s => s | _ => "?" end;
  Ceph.endpoint_accepts := λ _, true
|}.

Definition no_options : Ceph.options :=
  Ceph.Options None None None None None.

(** A second adapter class, with a result type of its own. *)
Definition AnalysisResultsStore : adapter_class :=
  {| class_name := "AnalysisResultsStore"; RESULT_TYPE := Some "analysis" |}.

Definition with_session (c : adapter_class) (result_type : string) : adapter :=
  {| cls := c;
     ceph := {| Ceph.prefix := result_type; Ceph.opts := no_options;
                Ceph.session := true |} |}.

Definition cache_adapter : adapter :=
  with_session BuildLogsAnalysesCacheStore "buildlogs-analysis-cache".

Definition analysis_adapter : adapter :=
  with_session AnalysisResultsStore "analysis".

(** [{"metadata": {"hostname": "pod-abc123"}}] *)
Definition pod_document : json :=
  JObject {[ "metadata" := JObject {[ "hostname" := JString "pod-abc123" ]} ]}.

(** [{}] *)
Definition empty_document : json := JObject ∅.

(** [{"metadata": "pod-abc123"}] *)
Definition flat_document : json :=
  JObject {[ "metadata" := JString "pod-abc123" ]}.

(** [{"metadata": {}}] *)
Definition no_hostname_document : json :=
  JObject {[ "metadata" := JObject ∅ ]}.

(** An inspection report of the matrix-multiplication indicator, as far as
    [from_report] reads it. *)
Definition matmul_parameters : gmap string json :=
  {[ "matrix_size" := JInt 512; "reps" := JInt 2000 ]}.

Definition matmul_result : gmap string json :=
  {[ "elapsed" := JFloat "0.5"; "rate" := JFloat "0.68" ]}.

Definition matmul_stdout : json :=
  JObject {[ "@parameters" := JObject matmul_parameters;
             "@result" := JObject matmul_result ]}.

Definition matmul_job_log : json := JObject {[ "stdout" := matmul_stdout ]}.

Definition matmul_report : json := JObject {[ "job_log" := matmul_job_log ]}.

(** A report whose result repeats the parameter [reps]. *)
Definition clashing_report : json :=
  JObject {[ "job_log" := JObject {[ "stdout" :=
    JObject {[ "@parameters" := JObject {[ "reps" := JInt 2000 ]};
               "@result" := JObject {[ "reps" := JInt 3 ]} ]} ]} ]}.

(** The index combinations of [python_package_version] as revision
    [b91c11e75551] creates them: none of them is unique. *)
Definition models_base : Models.ModelsBase := {|
  Models.get_python_package_version_index_combinations := λ _,
    (λ e : string * Alembic.index,
       Models.Index e.1 (Alembic.on_columns e.2) (Alembic.unique e.2))
    <$> map_to_list Rev_b91c11e75551.after
|}.

(** Two rows of [python_package_version_entity] for one package and
    version, of no known index. *)
Definition entity_row (id : Z) : Models.row :=
  {[ "id" := Models.VInt id;
     "package_name" := Models.VStr "tensorflow";
     "package_version" := Models.VStr "2.0.0" ]}.

(** Two rows of [python_package_version] for one package, version and
    environment, of no known index. *)
Definition version_row (id : Z) : Models.row :=
  {[ "id" := Models.VInt id;
     "package_name" := Models.VStr "tensorflow";
     "package_version" := Models.VStr "2.0.0";
     "os_name" := Models.VStr "rhel";
     "os_version" := Models.VStr "8";
     "python_version" := Models.VStr "3.6";
     "entity_id" := Models.VInt 1 ]}.

(** A schema that has the indexes revision [b91c11e75551] drops, one of
    them unique and on one column. *)
Definition odd_indexes : Alembic.indexes :=
  <[ Rev_b91c11e75551.idx "10" :=
       {| Alembic.table := Rev_b91c11e75551.ppv;
          Alembic.on_columns := ["package_name"];
          Alembic.unique := true |} ]> Rev_b91c11e75551.before.

(** A [get_or_create] that makes a row of the keyword arguments. *)
Definition make_row : @Performance.partial (list (gmap string json)) (gmap string json) :=
  λ kw db, (Return kw, kw :: db).

(** Floats are true unless their literal is [0.0]: enough for the reports
    below, which hold no float where a truth value is taken. *)
Definition py_float : PerformanceIndicator.PyFloat :=
  {| PerformanceIndicator.float_truth := λ literal, negb (String.eqb literal "0.0") |}.

(** An inspection document as [create_from_report] reads it: no [version]
    in [stdout], no [usage] in [job_log]. *)
Definition inspection_stdout : gmap string json :=
  {[ "framework" := JString "tensorflow";
     "@parameters" := JObject matmul_parameters;
     "@result" := JObject matmul_result ]}.

Definition inspection_job_log : gmap string json :=
  {[ "script_sha256" := JString "9f86d081884c7d65";
     "exit_code" := JInt 0;
     "stdout" := JObject inspection_stdout ]}.

Definition inspection_specification : json :=
  JObject {[ "script" := JString "https://example.com/matmul.py" ]}.

Definition inspection_document : json :=
  JObject {[ "specification" := inspection_specification;
             "job_log" := JObject inspection_job_log ]}.

Definition inspection_preset : gmap string json :=
  PerformanceIndicator.preset_of 7 (JString "tensorflow")
    (JString "https://example.com/matmul.py") (JString "9f86d081884c7d65")
    JNull (JInt 0) (λ _, JNull).

(** The same document with a parameter named [session]. *)
Definition session_document : json :=
  JObject {[ "specification" := inspection_specification;
             "job_log" := JObject
               (<[ "stdout" := JObject
                     (<[ "@parameters" :=
                           JObject (<[ "session" := JInt 1 ]> matmul_parameters) ]>
                        inspection_stdout) ]>
                  inspection_job_log) ]}.

(** A report of which only [stdout] is given. *)
Definition report_with_stdout (stdout : gmap string json) : json :=
  JObject {[ "job_log" := JObject {[ "stdout" := JObject stdout ]} ]}.

(** The same document with ["usage": null] in [job_log]. *)
Definition null_usage_job_log : gmap string json :=
  <[ "usage" := JNull ]> inspection_job_log.

Definition null_usage_document : json :=
  JObject {[ "specification" := inspection_specification;
             "job_log" := JObject null_usage_job_log ]}.

(** [{"metadata": {"hostname": "pod-abc123"}, "result": 1}]: another
    document of the same pod. *)
Definition second_pod_document : json :=
  JObject {[ "metadata" := JObject {[ "hostname" := JString "pod-abc123" ]};
             "result" := JInt 1 ]}.


End Sample.

(** * Properties *)

(** ** The result adapter *)

Section ResultStorageFacts.
Import ResultStorage.
Context `{Schema} `{Ceph.Endpoint}.

Lemma get_document_id_returns (d : json) :
  has_hostname d = true ↔ ∃ v, get_document_id d = Return v.
Proof.
  unfold has_hostname, get_document_id, getitem. split.
  - destruct d as [| | | | | |fields]; try discriminate.
    destruct (fields !! "metadata") as [[| | | | | |metadata]|]; try discriminate.
    intros [v Hv]%bool_decide_eq_true. exists v. simpl. by rewrite Hv.
  - intros [v Hv]. destruct d as [| | | | | |fields]; try discriminate.
    destruct (fields !! "metadata") as [[| | | | | |metadata]|];
      simpl in Hv; try discriminate.
    apply bool_decide_eq_true. destruct (metadata !! "hostname"); [eauto | discriminate].
Qed.

Lemma get_document_id_raises (d : json) :
  has_hostname d = false →
  get_document_id d
  = Raise match d with
          | JObject fields =>
              match fields !! "metadata" with
              | None => KeyError "metadata"
              | Some (JObject _) => KeyError "hostname"
              | Some _ => TypeError
              end
          | _ => TypeError
          end.
Proof.
  unfold has_hostname, get_document_id, getitem.
  destruct d as [| | | | | |fields]; simpl; try done.
  destruct (fields !! "metadata") as [[| | | | | |metadata]|]; simpl; try done.
  intros Hno%bool_decide_eq_false.
  destruct (metadata !! "hostname") as [v|]; [| done].
  destruct Hno; eauto.
Qed.

(** What [store_document] does once the schema has accepted the document
    and the id is derived. *)
Lemma store_document_accepted (self : adapter) (d v document_id : json)
    (s : Ceph.blobs) :
  RESULT_SCHEMA d = Return v →
  get_document_id d = Return document_id →
  store_document self d s =
    if is_connected self
    then (Return document_id,
          <[Ceph.object_key (ceph self) document_id := d]> s)
    else (Raise NotConnectedError, s).
Proof.
  intros Hv Hid. unfold store_document, Ceph.store_document, is_connected.
  rewrite Hv, Hid. by destruct (Ceph.is_connected (ceph self)).
Qed.

Lemma store_document_no_id (self : adapter) (d v : json) (e : exn)
    (s : Ceph.blobs) :
  RESULT_SCHEMA d = Return v →
  get_document_id d = Raise e →
  store_document self d s = (Raise e, s).
Proof. intros Hv Hid. unfold store_document. by rewrite Hv, Hid. Qed.

(** C1. A document that the schema rejects is not stored:
    [store_document] raises [SchemaError] (SchemaValidationError in the
    specification) whose cause is the exception the schema raised, and the
    blob store is the one it was before the call, whatever the adapter and
    whether or not it is connected. *)
Theorem store_document_validation_gate (self : adapter) (d : json)
    (exc : exn) (s : Ceph.blobs) :
  RESULT_SCHEMA d = Raise exc →
  store_document self d s
  = (Raise (SchemaError "Failed to validate document schema" exc), s).
Proof. intros Hexc. unfold store_document. by rewrite Hexc. Qed.

(** C2. The document id is a function of the document alone: equal
    documents have equal ids, and the id (or the exception) that
    [store_document] gives back is the same for any two connected adapters
    and any two contents of the blob store. *)
Theorem document_id_deterministic (d1 d2 : json) (a1 a2 : adapter)
    (s1 s2 : Ceph.blobs) :
  d1 = d2 →
  is_connected a1 = true →
  is_connected a2 = true →
  get_document_id d1 = get_document_id d2
  ∧ (store_document a1 d1 s1).1 = (store_document a2 d2 s2).1.
Proof.
  intros -> Ha1 Ha2. split; [done |].
  unfold store_document.
  destruct (RESULT_SCHEMA d2) as [v|exc]; [| done].
  destruct (get_document_id d2) as [document_id|e]; [| done].
  unfold Ceph.store_document. unfold is_connected in *. by rewrite Ha1, Ha2.
Qed.

(** C3, as amended. A document that the schema accepts and that has no
    [metadata.hostname] is not stored: [store_document] raises what the
    failing subscript raised and the blob store is the one it was before
    the call.  The exception is [KeyError('metadata')] for a dict without
    [metadata], [KeyError('hostname')] for a dict whose [metadata] is a
    dict without [hostname], and [TypeError] when the document, or its
    [metadata], is not a dict. *)
Theorem store_document_missing_hostname (self : adapter) (d v : json)
    (s : Ceph.blobs) :
  RESULT_SCHEMA d = Return v →
  has_hostname d = false →
  store_document self d s
  = (Raise match d with
           | JObject fields =>
               match fields !! "metadata" with
               | None => KeyError "metadata"
               | Some (JObject _) => KeyError "hostname"
               | Some _ => TypeError
               end
           | _ => TypeError
           end, s).
Proof.
  intros Hv Hno. apply (store_document_no_id self d v _ s Hv).
  by apply get_document_id_raises.
Qed.

(** C4. Storing a document a second time returns what the first call
    returned (the same id, or the same exception) and leaves the blob store
    as the first call left it; when the first call returned an id, the blob
    at the adapter's key for that id is the document. *)
Theorem store_document_idempotent (self : adapter) (d : json)
    (s : Ceph.blobs) :
  store_document self d (store_document self d s).2 = store_document self d s
  ∧ ∀ document_id,
      (store_document self d s).1 = Return document_id →
      (store_document self d s).2 !! Ceph.object_key (ceph self) document_id
      = Some d.
Proof.
  unfold store_document.
  destruct (RESULT_SCHEMA d) as [v|exc]; [| by split].
  destruct (get_document_id d) as [document_id|e]; [| by split].
  unfold Ceph.store_document.
  destruct (Ceph.is_connected (ceph self)); simpl; [| by split].
  split.
  - by rewrite insert_insert_eq.
  - intros ? [= <-]. apply lookup_insert_eq.
Qed.

(** C5. When the schema accepts the document, a dict whose [metadata] is
    a dict with the string [h] under [hostname], a connected adapter
    returns [h] as the id; after the call the document exists under [h] and
    is what [retrieve_document] returns for [h]. *)
Theorem store_document_returns_hostname (self : adapter)
    (fields metadata : gmap string json) (v : json) (h : string)
    (s : Ceph.blobs) :
  RESULT_SCHEMA (JObject fields) = Return v →
  fields !! "metadata" = Some (JObject metadata) →
  metadata !! "hostname" = Some (JString h) →
  is_connected self = true →
  (store_document self (JObject fields) s).1 = Return (JString h)
  ∧ document_exists self (JString h) (store_document self (JObject fields) s).2
    = Return true
  ∧ retrieve_document self (JString h)
      (store_document self (JObject fields) s).2
    = Return (JObject fields).
Proof.
  intros Hv Hm Hh Hc.
  assert (get_document_id (JObject fields) = Return (JString h)) as Hid.
  { unfold get_document_id, getitem. rewrite Hm. simpl. by rewrite Hh. }
  rewrite (store_document_accepted self _ v (JString h) s Hv Hid).
  rewrite Hc. simpl. unfold document_exists, retrieve_document,
    Ceph.document_exists, Ceph.retrieve_document.
  unfold is_connected in Hc. rewrite Hc, lookup_insert_eq.
  split_and!; [done | by f_equal | done].
Qed.

(** The namespace of an adapter is the [RESULT_TYPE] of its class, from
    [__init__] on and through [connect]. *)
Lemma init_prefix (c : adapter_class) (o : Ceph.options) (self : adapter) :
  __init__ c o = Return self →
  RESULT_TYPE c = Some (Ceph.prefix (ceph self)).
Proof.
  unfold __init__. destruct (RESULT_TYPE c) as [rt|]; [| discriminate].
  by intros [= <-].
Qed.

Lemma connect_prefix (self self' : adapter) :
  connect self = Return self' →
  Ceph.prefix (ceph self') = Ceph.prefix (ceph self)
  ∧ is_connected self' = true.
Proof.
  unfold connect, Ceph.connect.
  destruct (Ceph.endpoint_accepts _); [| discriminate].
  by intros [= <-].
Qed.

(** A write of one adapter keeps every blob of another namespace. *)
Lemma store_document_frame (a : adapter) (d : json) (s : Ceph.blobs)
    (k : string * string) :
  k.1 ≠ Ceph.prefix (ceph a) →
  (store_document a d s).2 !! k = s !! k.
Proof.
  intros Hk. unfold store_document.
  destruct (RESULT_SCHEMA d) as [v|exc]; [| done].
  destruct (get_document_id d) as [document_id|e]; [| done].
  unfold Ceph.store_document.
  destruct (Ceph.is_connected (ceph a)); [| done]. simpl.
  apply lookup_insert_ne. unfold Ceph.object_key. intros <-. by apply Hk.
Qed.

Lemma store_documents_frame (a : adapter) (ds : list json) (s : Ceph.blobs)
    (k : string * string) :
  k.1 ≠ Ceph.prefix (ceph a) →
  store_documents a ds s !! k = s !! k.
Proof.
  intros Hk. revert s. induction ds as [|d ds IH]; intros s; [done |].
  simpl. rewrite IH. by apply store_document_frame.
Qed.

Lemma listing_frame (b : Ceph.CephStore) (s s' : Ceph.blobs) :
  (∀ k, k.1 = Ceph.prefix b → s' !! k = s !! k) →
  Ceph.get_document_listing b s' = Ceph.get_document_listing b s.
Proof.
  intros Hk. unfold Ceph.get_document_listing.
  destruct (Ceph.is_connected b); [| done]. f_equal.
  apply set_eq. intros x. rewrite !elem_of_map.
  apply exist_proper. intros k. rewrite !elem_of_filter, !elem_of_dom.
  split; intros (-> & Hp & Hs); (split_and!; [done | done |]).
  - by rewrite <- Hk.
  - by rewrite Hk.
Qed.

(** C6. Two adapters built by [__init__] from classes with different
    [RESULT_TYPE] and connected to the same blob store: whatever documents
    the first one stores, the second one sees, for every id, under
    [document_exists] and [retrieve_document] and in its listing, what it
    saw before; in particular nothing, when nothing was in its own
    namespace. *)
Theorem namespace_isolation (clsA clsB : adapter_class)
    (oA oB : Ceph.options) (a0 a b0 b : adapter) (ds : list json)
    (s : Ceph.blobs) :
  __init__ clsA oA = Return a0 → connect a0 = Return a →
  __init__ clsB oB = Return b0 → connect b0 = Return b →
  RESULT_TYPE clsA ≠ RESULT_TYPE clsB →
  (∀ document_id,
     document_exists b document_id (store_documents a ds s)
     = document_exists b document_id s
     ∧ retrieve_document b document_id (store_documents a ds s)
       = retrieve_document b document_id s)
  ∧ get_document_listing b (store_documents a ds s)
    = get_document_listing b s
  ∧ ((∀ k, k.1 = Ceph.prefix (ceph b) → s !! k = None) →
     ∀ document_id,
       document_exists b document_id (store_documents a ds s) = Return false
       ∧ retrieve_document b document_id (store_documents a ds s)
         = Raise NotFoundError).
Proof.
  intros HA0 HA HB0 HB Hne.
  apply init_prefix in HA0, HB0.
  apply connect_prefix in HA as [HA _], HB as [HB Hconn].
  assert (Ceph.prefix (ceph b) ≠ Ceph.prefix (ceph a)) as Hp.
  { rewrite HA, HB. intros Heq. apply Hne. by rewrite HA0, HB0, Heq. }
  assert (∀ k, k.1 = Ceph.prefix (ceph b) →
               store_documents a ds s !! k = s !! k) as Hframe.
  { intros k Hk. apply store_documents_frame. by rewrite Hk. }
  assert (∀ document_id,
            store_documents a ds s !! Ceph.object_key (ceph b) document_id
            = s !! Ceph.object_key (ceph b) document_id) as Hkey.
  { intros document_id. by apply Hframe. }
  unfold document_exists, retrieve_document, get_document_listing,
    Ceph.document_exists, Ceph.retrieve_document.
  unfold is_connected in Hconn. rewrite Hconn.
  split_and!.
  - intros document_id. by rewrite Hkey.
  - by apply listing_frame.
  - intros Hempty document_id. rewrite Hkey, Hempty by done.
    by split.
Qed.

(** C10. [__init__] on a class whose [RESULT_TYPE] is [None] raises
    [AssertionError] and builds no store; when [__init__] returns an
    adapter, the class has a [RESULT_TYPE] and the adapter's store is the
    [CephStore] made with that value as its namespace, not yet
    connected. *)
Theorem init_requires_result_type (c : adapter_class) (o : Ceph.options) :
  (RESULT_TYPE c = None →
   __init__ c o = Raise (AssertionError RESULT_TYPE_undefined))
  ∧ (∀ self, __init__ c o = Return self →
       ∃ result_type,
         RESULT_TYPE c = Some result_type
         ∧ cls self = c
         ∧ ceph self = Ceph.new result_type o
         ∧ Ceph.prefix (ceph self) = result_type
         ∧ is_connected self = false).
Proof.
  unfold __init__. split.
  - by intros ->.
  - intros self Hself. destruct (RESULT_TYPE c) as [rt|]; [| discriminate].
    injection Hself as <-. by exists rt.
Qed.

End ResultStorageFacts.

(** The validation gate at work: the schema that requires
    [metadata.hostname] rejects [{}]. *)
Lemma store_document_validation_gate_witness :
  @ResultStorage.store_document Sample.hostname_schema Sample.endpoint
    Sample.cache_adapter Sample.empty_document ∅
  = (Raise (SchemaError "Failed to validate document schema"
             (Invalid "required key not provided @ data['metadata']['hostname']")),
     ∅).
Proof.
  apply (@store_document_validation_gate Sample.hostname_schema Sample.endpoint).
  reflexivity.
Defined.

Lemma document_id_deterministic_witness :
  ResultStorage.get_document_id Sample.pod_document
  = ResultStorage.get_document_id Sample.pod_document
  ∧ (@ResultStorage.store_document Sample.any_schema Sample.endpoint
       Sample.cache_adapter Sample.pod_document ∅).1
    = (@ResultStorage.store_document Sample.any_schema Sample.endpoint
         Sample.analysis_adapter Sample.pod_document
         {[ ("analysis", "pod-abc123") := Sample.empty_document ]}).1.
Proof.
  apply (@document_id_deterministic Sample.any_schema Sample.endpoint);
    reflexivity.
Defined.

Lemma store_document_idempotent_witness :
  @ResultStorage.store_document Sample.hostname_schema Sample.endpoint
    Sample.analysis_adapter Sample.pod_document
    (@ResultStorage.store_document Sample.hostname_schema Sample.endpoint
       Sample.analysis_adapter Sample.pod_document ∅).2
  = (Return (JString "pod-abc123"),
     {[ ("analysis", "pod-abc123") := Sample.pod_document ]}).
Proof.
  rewrite (proj1 (@store_document_idempotent Sample.hostname_schema
                    Sample.endpoint Sample.analysis_adapter
                    Sample.pod_document ∅)).
  reflexivity.
Defined.

(** The build-log cache and another adapter on one blob store. *)
Lemma namespace_isolation_witness :
  (∀ document_id,
     @ResultStorage.document_exists Sample.endpoint Sample.analysis_adapter
       document_id
       (@ResultStorage.store_documents Sample.any_schema Sample.endpoint
          Sample.cache_adapter [Sample.pod_document] ∅)
     = @ResultStorage.document_exists Sample.endpoint Sample.analysis_adapter
         document_id ∅
     ∧ @ResultStorage.retrieve_document Sample.endpoint Sample.analysis_adapter
         document_id
         (@ResultStorage.store_documents Sample.any_schema Sample.endpoint
            Sample.cache_adapter [Sample.pod_document] ∅)
       = @ResultStorage.retrieve_document Sample.endpoint
           Sample.analysis_adapter document_id ∅)
  ∧ ResultStorage.get_document_listing Sample.analysis_adapter
      (@ResultStorage.store_documents Sample.any_schema Sample.endpoint
         Sample.cache_adapter [Sample.pod_document] ∅)
    = ResultStorage.get_document_listing Sample.analysis_adapter ∅
  ∧ ((∀ k : string * string,
        k.1 = Ceph.prefix (ResultStorage.ceph Sample.analysis_adapter) →
        (∅ : Ceph.blobs) !! k = None) →
     ∀ document_id,
       @ResultStorage.document_exists Sample.endpoint Sample.analysis_adapter
         document_id
         (@ResultStorage.store_documents Sample.any_schema Sample.endpoint
            Sample.cache_adapter [Sample.pod_document] ∅)
       = Return false
       ∧ @ResultStorage.retrieve_document Sample.endpoint
           Sample.analysis_adapter document_id
           (@ResultStorage.store_documents Sample.any_schema Sample.endpoint
              Sample.cache_adapter [Sample.pod_document] ∅)
         = Raise NotFoundError).
Proof.
  apply (@namespace_isolation Sample.any_schema Sample.endpoint
           ResultStorage.BuildLogsAnalysesCacheStore
           Sample.AnalysisResultsStore Sample.no_options Sample.no_options
           {| ResultStorage.cls := ResultStorage.BuildLogsAnalysesCacheStore;
              ResultStorage.ceph :=
                Ceph.new "buildlogs-analysis-cache" Sample.no_options |}
           Sample.cache_adapter
           {| ResultStorage.cls := Sample.AnalysisResultsStore;
              ResultStorage.ceph := Ceph.new "analysis" Sample.no_options |}
           Sample.analysis_adapter);
    [reflexivity | reflexivity | reflexivity | reflexivity | discriminate].
Defined.

(** The base class itself cannot be instantiated; the build-log cache
    can, in its own namespace. *)
Lemma init_requires_result_type_witness :
  ResultStorage.__init__ ResultStorage.ResultStorageBase Sample.no_options
  = Raise (AssertionError ResultStorage.RESULT_TYPE_undefined).
Proof.
  apply (proj1 (init_requires_result_type ResultStorage.ResultStorageBase
                  Sample.no_options)).
  reflexivity.
Defined.

Example init_buildlogs_cache :
  ResultStorage.__init__ ResultStorage.BuildLogsAnalysesCacheStore
    Sample.no_options
  = Return {| ResultStorage.cls := ResultStorage.BuildLogsAnalysesCacheStore;
              ResultStorage.ceph :=
                Ceph.new "buildlogs-analysis-cache" Sample.no_options |}.
Proof. reflexivity. Qed.

(** C3 as stated does not hold: [{}] passes the schema that accepts every
    document and has no [metadata.hostname]; [store_document] raises
    [KeyError('metadata')], and for [{"metadata": "pod-abc123"}] it raises
    [TypeError]; neither is MalformedDocumentError. *)
Lemma store_document_missing_hostname_not_malformed :
  @ResultStorage.RESULT_SCHEMA Sample.any_schema Sample.empty_document
  = Return Sample.empty_document
  ∧ ResultStorage.has_hostname Sample.empty_document = false
  ∧ @ResultStorage.store_document Sample.any_schema Sample.endpoint
      Sample.cache_adapter Sample.empty_document ∅
    = (Raise (KeyError "metadata"), ∅)
  ∧ @ResultStorage.store_document Sample.any_schema Sample.endpoint
      Sample.cache_adapter Sample.flat_document ∅
    = (Raise TypeError, ∅)
  ∧ (@ResultStorage.store_document Sample.any_schema Sample.endpoint
       Sample.cache_adapter Sample.empty_document ∅).1
    ≠ Raise MalformedDocumentError.
Proof. split_and!; [reflexivity | reflexivity | reflexivity | reflexivity | discriminate]. Qed.

(** [{"metadata": {}}]: the dict is there, the key is not. *)
Lemma store_document_missing_hostname_witness :
  @ResultStorage.store_document Sample.any_schema Sample.endpoint
    Sample.cache_adapter Sample.no_hostname_document ∅
  = (Raise (KeyError "hostname"), ∅).
Proof.
  exact (@store_document_missing_hostname Sample.any_schema Sample.endpoint
           Sample.cache_adapter Sample.no_hostname_document
           Sample.no_hostname_document ∅ eq_refl eq_refl).
Defined.

(** The other shapes of a document without [metadata.hostname]: [{}],
    [{"metadata": "pod-abc123"}], and a document that is a list. *)
Example store_document_no_metadata :
  @ResultStorage.store_document Sample.any_schema Sample.endpoint
    Sample.cache_adapter Sample.empty_document ∅
  = (Raise (KeyError "metadata"), ∅).
Proof. reflexivity. Qed.

Example store_document_flat_metadata :
  @ResultStorage.store_document Sample.any_schema Sample.endpoint
    Sample.cache_adapter Sample.flat_document ∅
  = (Raise TypeError, ∅).
Proof. reflexivity. Qed.

Example store_document_list :
  @ResultStorage.store_document Sample.any_schema Sample.endpoint
    Sample.cache_adapter (JArray [Sample.pod_document]) ∅
  = (Raise TypeError, ∅).
Proof. reflexivity. Qed.

(** The scenario of the specification: [{"metadata": {"hostname":
    "pod-abc123"}}] under a schema requiring only [metadata.hostname]. *)
Lemma store_document_returns_hostname_witness :
  (@ResultStorage.store_document Sample.hostname_schema Sample.endpoint
     Sample.analysis_adapter Sample.pod_document ∅).1
  = Return (JString "pod-abc123")
  ∧ @ResultStorage.document_exists Sample.endpoint Sample.analysis_adapter
      (JString "pod-abc123")
      (@ResultStorage.store_document Sample.hostname_schema Sample.endpoint
         Sample.analysis_adapter Sample.pod_document ∅).2
    = Return true
  ∧ @ResultStorage.retrieve_document Sample.endpoint Sample.analysis_adapter
      (JString "pod-abc123")
      (@ResultStorage.store_document Sample.hostname_schema Sample.endpoint
         Sample.analysis_adapter Sample.pod_document ∅).2
    = Return Sample.pod_document.
Proof.
  apply (@store_document_returns_hostname Sample.hostname_schema
           Sample.endpoint Sample.analysis_adapter
           {[ "metadata" := JObject {[ "hostname" := JString "pod-abc123" ]} ]}
           {[ "hostname" := JString "pod-abc123" ]}
           Sample.pod_document "pod-abc123" ∅);
    reflexivity.
Defined.

(** ** [from_report] *)

Section PerformanceFacts.
Import Performance.

Lemma copy_parameters_union (l : list (string * json)) (kw : kwargs) :
  NoDup l.*1 → copy_parameters l kw = list_to_map l ∪ kw.
Proof.
  revert kw. induction l as [|[k v] l IH]; intros kw Hnd; simpl.
  - by rewrite (left_id_L ∅ (∪)).
  - apply NoDup_cons in Hnd as [Hk Hnd]. rewrite IH by done.
    rewrite <- insert_union_l. apply symmetry, insert_union_r.
    by apply not_elem_of_list_to_map_1.
Qed.

Lemma add_results_disjoint (l : list (string * json)) (kw : kwargs) :
  NoDup l.*1 →
  (∀ k, k ∈ l.*1 → kw !! k = None) →
  add_results l kw = Return (kw ∪ list_to_map l).
Proof.
  revert kw. induction l as [|[k v] l IH]; intros kw Hnd Hfree; simpl.
  - by rewrite (right_id_L ∅ (∪)).
  - apply NoDup_cons in Hnd as [Hk Hnd].
    assert (kw !! k = None) as Hkw by (apply Hfree; simpl; left).
    destruct (decide (is_Some (kw !! k))) as [[? Hs]|_]; [congruence |].
    rewrite IH; [| done |].
    + f_equal. rewrite <- insert_union_l. by apply insert_union_r.
    + intros k' Hk'. rewrite lookup_insert_ne.
      * apply Hfree. simpl. by right.
      * by intros ->.
Qed.


Lemma keys_map_to_list (m : gmap string json) (k : string) :
  k ∈ (map_to_list m).*1 ↔ is_Some (m !! k).
Proof.
  rewrite list_elem_of_fmap. split.
  - intros ([k' v] & -> & Hin). apply elem_of_map_to_list in Hin. by exists v.
  - intros [v Hv]. exists (k, v). split; [done |]. by apply elem_of_map_to_list.
Qed.

Context {Session Model : Type}.

(** What [from_report] computes on a report whose [@parameters] and
    [@result] are dicts. *)
Lemma from_report_unfold (doc job_log stdout : json)
    (P R : gmap string json) (partial_model : @partial Session Model)
    (db : Session) :
  getitem doc "job_log" = Return job_log →
  getitem job_log "stdout" = Return stdout →
  getitem stdout "@parameters" = Return (JObject P) →
  getitem stdout "@result" = Return (JObject R) →
  from_report doc partial_model db =
    match add_results (map_to_list R) P with
    | Raise e => (Raise e, db)
    | Return kw => partial_model kw db
    end.
Proof.
  intros Hj Hs HP HR. unfold from_report. rewrite Hj. simpl.
  rewrite Hs. simpl. rewrite HP, HR. simpl.
  rewrite copy_parameters_union by apply NoDup_fst_map_to_list.
  by rewrite list_to_map_to_list, (right_id_L ∅ (∪)).
Qed.


End PerformanceFacts.


(** The two outcomes on sample reports. *)
Example from_report_matmul :
  Performance.from_report Sample.matmul_report Sample.make_row []
  = (Return (Sample.matmul_parameters ∪ Sample.matmul_result),
     [Sample.matmul_parameters ∪ Sample.matmul_result]).
Proof. reflexivity. Qed.

Example from_report_clash :
  Performance.from_report Sample.clashing_report Sample.make_row []
  = (Raise (ValueError Performance.collision), []).
Proof. reflexivity. Qed.

(** ** The package-version tables *)

Section ModelsFacts.
Import Models.

Lemma distinct_keys_lookup (ks : list (list (option value))) (i j : nat)
    (k1 k2 : list (option value)) :
  distinct_keys ks = true →
  i ≠ j → ks !! i = Some k1 → ks !! j = Some k2 →
  has_null k1 = false →
  k1 ≠ k2.
Proof.
  revert i j. induction ks as [|k ks IH]; intros i j Hd Hij Hi Hj Hnull; [done |].
  simpl in Hd. apply andb_true_iff in Hd as [Hk Hd].
  destruct i as [|i], j as [|j]; simpl in *; simplify_eq.
  - rewrite Hnull in Hk. simpl in Hk.
    apply negb_true_iff, bool_decide_eq_false in Hk.
    intros ->. apply Hk. by eapply list_elem_of_lookup_2.
  - intros ->. rewrite Hnull in Hk. simpl in Hk.
    apply negb_true_iff, bool_decide_eq_false in Hk.
    apply Hk. by eapply list_elem_of_lookup_2.
  - apply (IH i j); try done. by intros ->.
Qed.

Lemma unique_on_lookup (cols : list string) (rows : list row) (i j : nat)
    (r1 r2 : row) :
  unique_on cols rows = true →
  i ≠ j → rows !! i = Some r1 → rows !! j = Some r2 →
  has_null (key_of cols r1) = false →
  key_of cols r1 ≠ key_of cols r2.
Proof.
  intros Hu Hij Hi Hj Hnull.
  apply (distinct_keys_lookup (key_of cols <$> rows) i j); try done.
  - by rewrite list_lookup_fmap, Hi.
  - by rewrite list_lookup_fmap, Hj.
Qed.

Lemma not_null_holds (rows : list row) (c : Column) (i : nat) (r : row) :
  column_holds rows c = true → nullable c = false →
  rows !! i = Some r → is_Some (r !! name c).
Proof.
  unfold column_holds. intros Hc Hn Hi. rewrite Hn in Hc. simpl in Hc.
  apply andb_true_iff in Hc as [Hc _].
  rewrite forallb_forall in Hc. apply list_elem_of_lookup_2, list_elem_of_In in Hi.
  by apply Hc, bool_decide_eq_true in Hi.
Qed.

Context `{ModelsBase}.

(** C8, as amended. [python_package_version] declares a
    [UniqueConstraint] on (package_name, package_version,
    python_package_index_id, os_name, os_version, python_version) and
    [python_package_version_entity] declares its only [UniqueConstraint] on
    (package_name, package_version, python_package_index_id); in any rows
    that a table admits, two rows do not agree on the tuple when
    [package_version] and [python_package_index_id], the two columns of the
    tuple that are nullable, are not NULL in one of them. *)
Theorem unique_keys_enforced :
  __table_args__ PythonPackageVersion
  = (get_python_package_version_index_combinations false
     ++ [ UniqueConstraint package_version_key;
          Index "python_package_version_idx" package_version_entity_key false ])%list
  ∧ filter is_unique_constraint (__table_args__ PythonPackageVersionEntity)
    = [ UniqueConstraint package_version_entity_key ]
  ∧ (∀ rows i j r1 r2,
       admits PythonPackageVersion rows = true →
       i ≠ j → rows !! i = Some r1 → rows !! j = Some r2 →
       is_Some (r1 !! "package_version") →
       is_Some (r1 !! "python_package_index_id") →
       key_of package_version_key r1 ≠ key_of package_version_key r2)
  ∧ (∀ rows i j r1 r2,
       admits PythonPackageVersionEntity rows = true →
       i ≠ j → rows !! i = Some r1 → rows !! j = Some r2 →
       is_Some (r1 !! "package_version") →
       is_Some (r1 !! "python_package_index_id") →
       key_of package_version_entity_key r1
       ≠ key_of package_version_entity_key r2).
Proof.
  split_and!; [done | done | |].
  - intros rows i j r1 r2 Hadm Hij Hi Hj [v1 Hv] [v2 Hx].
    unfold admits in Hadm. apply andb_true_iff in Hadm as [Hcols Hargs].
    simpl in Hargs. rewrite forallb_app in Hargs.
    apply andb_true_iff in Hargs as [_ Hargs]. simpl in Hargs.
    apply andb_true_iff in Hargs as [Hu _].
    simpl in Hcols. repeat (apply andb_true_iff in Hcols as [? Hcols]).
    apply (unique_on_lookup _ rows i j); try done.
    destruct (not_null_holds rows (col "package_name" false) i r1) as [? Hn]; try done.
    destruct (not_null_holds rows (col "os_name" false) i r1) as [? Ho]; try done.
    destruct (not_null_holds rows (col "os_version" false) i r1) as [? Hov]; try done.
    destruct (not_null_holds rows (col "python_version" false) i r1) as [? Hp]; try done.
    simpl in *. unfold key_of, package_version_key. simpl.
    by rewrite Hv, Hx, Hn, Ho, Hov, Hp.
  - intros rows i j r1 r2 Hadm Hij Hi Hj [v1 Hv] [v2 Hx].
    unfold admits in Hadm. apply andb_true_iff in Hadm as [Hcols Hargs].
    simpl in Hargs. apply andb_true_iff in Hargs as [Hu _].
    simpl in Hcols. repeat (apply andb_true_iff in Hcols as [? Hcols]).
    apply (unique_on_lookup _ rows i j); try done.
    destruct (not_null_holds rows (col "package_name" false) i r1) as [? Hn]; try done.
    simpl in *. unfold key_of, package_version_entity_key. simpl.
    by rewrite Hv, Hx, Hn.
Qed.

End ModelsFacts.

(** C8 as stated does not hold: with [python_package_index_id] NULL, both
    tables admit two rows that agree on the tuple. *)
Lemma unique_keys_admit_null_duplicates :
  Models.admits Models.PythonPackageVersionEntity
    [Sample.entity_row 1; Sample.entity_row 2] = true
  ∧ Models.key_of Models.package_version_entity_key (Sample.entity_row 1)
    = Models.key_of Models.package_version_entity_key (Sample.entity_row 2)
  ∧ Models.admits (@Models.PythonPackageVersion Sample.models_base)
      [Sample.version_row 1; Sample.version_row 2] = true
  ∧ Models.key_of Models.package_version_key (Sample.version_row 1)
    = Models.key_of Models.package_version_key (Sample.version_row 2).
Proof. split_and!; vm_compute; reflexivity. Qed.

(** ** The revisions *)

Section AlembicFacts.
Import Alembic.

(** Operations leave alone the indexes they do not name. *)
Lemma apply_frame (o : operation) (m m' frame : indexes) :
  apply o m = Return m' →
  frame !! target o = None →
  apply o (m ∪ frame) = Return (m' ∪ frame).
Proof.
  destruct o as [n t cols u|n t]; simpl; intros Hm Hf.
  - destruct (m !! n) eqn:Hn; [discriminate |]. injection Hm as <-.
    rewrite (lookup_union_l m frame n Hf), Hn.
    by rewrite insert_union_l.
  - destruct (m !! n) eqn:Hn; [| discriminate]. injection Hm as <-.
    rewrite (lookup_union_l m frame n Hf), Hn.
    by rewrite delete_union, (delete_id frame).
Qed.

Lemma run_frame (ops : list operation) (m m' frame : indexes) :
  run ops m = Return m' →
  Forall (λ o, frame !! target o = None) ops →
  run ops (m ∪ frame) = Return (m' ∪ frame).
Proof.
  revert m. induction ops as [|o ops IH]; simpl; intros m Hm Hf.
  - by injection Hm as <-.
  - apply Forall_cons in Hf as [Ho Hf].
    destruct (apply o m) as [m1|e] eqn:Hom; [| discriminate]. simpl in Hm.
    rewrite (apply_frame o m m1 frame Hom Ho). simpl. by apply IH.
Qed.

Lemma b91c_upgrade_before :
  run Rev_b91c11e75551.upgrade Rev_b91c11e75551.before
  = Return Rev_b91c11e75551.after.
Proof. vm_compute. reflexivity. Qed.

Lemma b91c_downgrade_after :
  run Rev_b91c11e75551.downgrade Rev_b91c11e75551.after
  = Return Rev_b91c11e75551.before.
Proof. vm_compute. reflexivity. Qed.

(** C9. [upgrade()] and then [downgrade()] give the schema back.
    Revision [79e1d320db3d]: on every schema that has no index
    [depends_on_version_id_idx], that is wherever [upgrade()] runs.
    Revision [b91c11e75551]: on every schema of its down-revision, that is
    one with no index [python_package_version_index_idx_00] and with the
    fifteen indexes that [upgrade()] drops as [downgrade()] records them,
    whatever other indexes the schema has. *)
Theorem upgrade_downgrade_restores :
  (∀ s : indexes,
     s !! "depends_on_version_id_idx" = None →
     run Rev_79e1d320db3d.upgrade s ≫= run Rev_79e1d320db3d.downgrade
     = Return s)
  ∧ (∀ s : indexes,
       s !! Rev_b91c11e75551.idx "00" = None →
       Rev_b91c11e75551.before ⊆ s →
       run Rev_b91c11e75551.upgrade s ≫= run Rev_b91c11e75551.downgrade
       = Return s).
Proof.
  split.
  - intros s Hs. simpl. rewrite Hs. simpl.
    by rewrite lookup_insert_eq, delete_insert_id.
  - intros s H00 Hsub.
    assert (∀ n, n = Rev_b91c11e75551.idx "00"
                 ∨ is_Some (Rev_b91c11e75551.before !! n) →
                 (s ∖ Rev_b91c11e75551.before) !! n = None) as Hframe.
    { intros n [->|Hn]; apply lookup_difference_None; auto. }
    apply map_difference_union in Hsub.
    revert Hsub Hframe. generalize (s ∖ Rev_b91c11e75551.before).
    intros frame <- Hframe.
    rewrite (run_frame _ _ _ frame b91c_upgrade_before).
    + simpl. apply (run_frame _ _ _ frame b91c_downgrade_after).
      repeat constructor; apply Hframe; vm_compute; eauto.
    + repeat constructor; apply Hframe; vm_compute; eauto.
Qed.

End AlembicFacts.

Lemma upgrade_downgrade_restores_witness :
  Alembic.run Rev_79e1d320db3d.upgrade Rev_b91c11e75551.before
  ≫= Alembic.run Rev_79e1d320db3d.downgrade
  = Return Rev_b91c11e75551.before
  ∧ Alembic.run Rev_b91c11e75551.upgrade
      (Rev_b91c11e75551.before ∪ Migration.depends_on_version_id_idx)
    ≫= Alembic.run Rev_b91c11e75551.downgrade
    = Return (Rev_b91c11e75551.before ∪ Migration.depends_on_version_id_idx).
Proof.
  split.
  - apply (proj1 upgrade_downgrade_restores). compute_done.
  - apply (proj2 upgrade_downgrade_restores);
      [compute_done | apply map_union_subseteq_l].
Defined.

(** The definitions recorded in [downgrade()] are needed: on a schema
    whose index [python_package_version_index_idx_10] is defined otherwise
    (no revision makes such a schema), [upgrade()] runs and [downgrade()]
    then gives the recorded definitions, not the ones it started from. *)
Lemma upgrade_downgrade_forgets_definitions :
  Alembic.run Rev_b91c11e75551.upgrade Sample.odd_indexes
  = Return Rev_b91c11e75551.after
  ∧ Alembic.run Rev_b91c11e75551.upgrade Sample.odd_indexes
    ≫= Alembic.run Rev_b91c11e75551.downgrade
    = Return Rev_b91c11e75551.before
  ∧ Rev_b91c11e75551.before ≠ Sample.odd_indexes.
Proof.
  split_and!; [vm_compute; reflexivity | vm_compute; reflexivity |].
  intros Heq.
  apply (f_equal (λ m : Alembic.indexes, m !! Rev_b91c11e75551.idx "10")) in Heq.
  vm_compute in Heq. discriminate.
Qed.

(** ** More on the result adapter *)

Section MoreResultStorageFacts.
Import ResultStorage.
Context `{Schema} `{Ceph.Endpoint}.

(** X1. [get_document_id] returns exactly on a dict whose [metadata] is a
    dict with a [hostname] key, and what it returns is the value under that
    key as it is, of whatever type. *)
Theorem get_document_id_value (d v : json) :
  get_document_id d = Return v
  ↔ ∃ fields metadata,
      d = JObject fields
      ∧ fields !! "metadata" = Some (JObject metadata)
      ∧ metadata !! "hostname" = Some v.
Proof.
  unfold get_document_id, getitem. split.
  - destruct d as [| | | | | |fields]; try discriminate.
    destruct (fields !! "metadata") as [[| | | | | |metadata]|] eqn:Hm;
      try discriminate.
    simpl. destruct (metadata !! "hostname") as [x|] eqn:Hh; [| discriminate].
    intros [= <-]. by exists fields, metadata.
  - intros (fields & metadata & -> & -> & Hh). simpl. by rewrite Hh.
Qed.

(** X2. When [store_document] returns an id, the schema accepted the
    document, the id is what [get_document_id] gives for it, the adapter
    was connected, and the store differs from the one before only by the
    document at the adapter's key for that id. *)
Theorem store_document_returns_inv (self : adapter) (d document_id : json)
    (s s' : Ceph.blobs) :
  store_document self d s = (Return document_id, s') →
  (∃ v, RESULT_SCHEMA d = Return v)
  ∧ get_document_id d = Return document_id
  ∧ is_connected self = true
  ∧ s' = <[Ceph.object_key (ceph self) document_id := d]> s.
Proof.
  unfold store_document, Ceph.store_document, is_connected.
  destruct (RESULT_SCHEMA d) as [v|exc]; [| discriminate].
  destruct (get_document_id d) as [i|e]; [| discriminate].
  destruct (Ceph.is_connected (ceph self)); [| discriminate].
  intros [= <- <-]. split_and!; eauto.
Qed.

(** X4. Two documents that the schema accepts and that have the same
    [metadata.hostname] take the same key: after storing the first and then
    the second, [retrieve_document] gives the second, and the store is the
    one that storing the second alone gives; the first is gone. *)
Theorem store_document_last_write_wins (self : adapter)
    (d1 d2 v1 v2 document_id : json) (s : Ceph.blobs) :
  RESULT_SCHEMA d1 = Return v1 →
  RESULT_SCHEMA d2 = Return v2 →
  get_document_id d1 = Return document_id →
  get_document_id d2 = Return document_id →
  is_connected self = true →
  (store_document self d2 (store_document self d1 s).2).1 = Return document_id
  ∧ retrieve_document self document_id
      (store_document self d2 (store_document self d1 s).2).2
    = Return d2
  ∧ (store_document self d2 (store_document self d1 s).2).2
    = (store_document self d2 s).2.
Proof.
  intros Hv1 Hv2 Hid1 Hid2 Hc.
  rewrite (store_document_accepted self d1 v1 document_id s Hv1 Hid1), Hc.
  simpl.
  rewrite !(store_document_accepted self d2 v2 document_id _ Hv2 Hid2), Hc.
  simpl. unfold retrieve_document, Ceph.retrieve_document.
  unfold is_connected in Hc. rewrite Hc, lookup_insert_eq.
  split_and!; [done | done |]. apply insert_insert_eq.
Qed.

End MoreResultStorageFacts.

Lemma store_document_returns_inv_witness :
  (∃ v, @ResultStorage.RESULT_SCHEMA Sample.hostname_schema Sample.pod_document
        = Return v)
  ∧ ResultStorage.get_document_id Sample.pod_document
    = Return (JString "pod-abc123")
  ∧ ResultStorage.is_connected Sample.analysis_adapter = true
  ∧ ({[ ("analysis", "pod-abc123") := Sample.pod_document ]} : Ceph.blobs)
    = <[@Ceph.object_key Sample.endpoint
          (ResultStorage.ceph Sample.analysis_adapter)
          (JString "pod-abc123") := Sample.pod_document]> ∅.
Proof.
  apply (@store_document_returns_inv Sample.hostname_schema Sample.endpoint
           Sample.analysis_adapter Sample.pod_document (JString "pod-abc123")
           ∅ {[ ("analysis", "pod-abc123") := Sample.pod_document ]}).
  reflexivity.
Defined.

Lemma store_document_last_write_wins_witness :
  (@ResultStorage.store_document Sample.hostname_schema Sample.endpoint
     Sample.analysis_adapter Sample.second_pod_document
     (@ResultStorage.store_document Sample.hostname_schema Sample.endpoint
        Sample.analysis_adapter Sample.pod_document ∅).2).1
  = Return (JString "pod-abc123")
  ∧ @ResultStorage.retrieve_document Sample.endpoint Sample.analysis_adapter
      (JString "pod-abc123")
      (@ResultStorage.store_document Sample.hostname_schema Sample.endpoint
         Sample.analysis_adapter Sample.second_pod_document
         (@ResultStorage.store_document Sample.hostname_schema Sample.endpoint
            Sample.analysis_adapter Sample.pod_document ∅).2).2
    = Return Sample.second_pod_document
  ∧ (@ResultStorage.store_document Sample.hostname_schema Sample.endpoint
       Sample.analysis_adapter Sample.second_pod_document
       (@ResultStorage.store_document Sample.hostname_schema Sample.endpoint
          Sample.analysis_adapter Sample.pod_document ∅).2).2
    = (@ResultStorage.store_document Sample.hostname_schema Sample.endpoint
         Sample.analysis_adapter Sample.second_pod_document ∅).2.
Proof.
  apply (@store_document_last_write_wins Sample.hostname_schema
           Sample.endpoint Sample.analysis_adapter Sample.pod_document
           Sample.second_pod_document Sample.pod_document
           Sample.second_pod_document (JString "pod-abc123") ∅);
    reflexivity.
Defined.

(** ** [create_from_report] *)

Section CreateFromReportFacts.
Import Performance PerformanceIndicator.
Context `{PyFloat} {Session Model : Type}.

Lemma from_report_no_collision (doc job_log : json)
    (S P R : gmap string json) (partial_model : @partial Session Model)
    (db : Session) :
  getitem doc "job_log" = Return job_log →
  getitem job_log "stdout" = Return (JObject S) →
  S !! "@parameters" = Some (JObject P) →
  S !! "@result" = Some (JObject R) →
  (∀ k, is_Some (P !! k) → R !! k = None) →
  from_report doc partial_model db = partial_model (P ∪ R) db.
Proof.
  intros Hj Hs HP HR Hno.
  rewrite (from_report_unfold doc job_log (JObject S) P R partial_model db Hj Hs);
    [| by simpl; rewrite HP | by simpl; rewrite HR].
  rewrite add_results_disjoint.
  - by rewrite list_to_map_to_list.
  - apply NoDup_fst_map_to_list.
  - intros k [v Hk]%keys_map_to_list. destruct (P !! k) eqn:HPk; [| done].
    rewrite Hno in Hk by eauto. done.
Qed.

Lemma usage_eq (doc : json) (J : gmap string json) (field : string) :
  getitem doc "job_log" = Return (JObject J) →
  usage doc field = usage_value J field.
Proof.
  intros Hj. unfold usage, usage_value. rewrite Hj. simpl.
  by destruct (J !! "usage") as [[| | | | | |U]|].
Qed.

(** [keywords] on a report whose [job_log] and [stdout] are dicts. *)
Lemma keywords_unfold (doc : json) (J S : gmap string json) (run_id : Z)
    (fw os : json) :
  getitem doc "job_log" = Return (JObject J) →
  J !! "stdout" = Some (JObject S) →
  keywords doc run_id fw os =
    (specification ← getitem doc "specification";
     origin ← getitem specification "script";
     version ← (if truthy (default JNull (S !! "version"))
                then Return (default JNull (S !! "version"))
                else getitem (JObject J) "script_sha256");
     ru ← usage_values J;
     Return (preset_of run_id fw origin version os
               (default JNull (J !! "exit_code")) ru)).
Proof.
  intros Hj Hs. unfold keywords.
  rewrite !(usage_eq doc J _ Hj), Hj. unfold usage_value, usage_values.
  destruct (getitem doc "specification") as [specification|]; [| done].
  cbv beta iota delta [mbind result_bind].
  destruct (getitem specification "script") as [origin|]; [| done].
  cbv beta iota delta [getitem dict_get]. rewrite Hs.
  destruct (S !! "version") as [v|];
    cbv beta iota delta [from_option Datatypes.id];
    [destruct (truthy v) |
     change (truthy JNull) with false];
    cbv beta iota;
    try (destruct (J !! "script_sha256"); [| done]);
    destruct (J !! "usage") as [[| | | | | |U]|]; reflexivity.
Qed.

Lemma create_from_report_unfold (cls : string)
    (get_or_create : @get_or_create_t Session Model) (session : Session)
    (doc : json) (run_id : Z) (J S : gmap string json) :
  getitem doc "job_log" = Return (JObject J) →
  J !! "stdout" = Some (JObject S) →
  ∃ log,
    create_from_report cls get_or_create session doc run_id =
      match keywords doc run_id (default JNull (S !! "framework"))
              (default JNull (S !! "overall_score")) with
      | Raise e => (Raise e, session, log)
      | Return preset =>
          (from_report doc (partial_call get_or_create preset) session, log)
      end.
Proof.
  intros Hj Hs. unfold create_from_report. rewrite Hj.
  cbv beta iota delta [mbind result_bind getitem dict_get]. rewrite Hs.
  cbv beta iota. by eexists.
Qed.

(** X5. On a report whose [@parameters] and [@result] are dicts with no
    key in common, and whose preset keywords ([origin], [version], the
    [ru_*] and the others of the [partial] call) evaluate to [preset]
    without raising: when no parameter or result is named [session] or
    [cls], [create_from_report] is one call of [get_or_create] with the
    keywords of the report laid over the preset ones, so a parameter or
    result named like a preset keyword (one of the base columns, such as
    [framework] or [exit_code]) replaces the preset value and nothing is
    raised for it; when one is named [session] or [cls], the call raises
    [TypeError], [get_or_create] does not run and the session is
    untouched. *)
Theorem create_from_report_overrides (cls : string)
    (get_or_create : @get_or_create_t Session Model) (session : Session)
    (doc : json) (run_id : Z) (J S P R preset : gmap string json) :
  getitem doc "job_log" = Return (JObject J) →
  J !! "stdout" = Some (JObject S) →
  S !! "@parameters" = Some (JObject P) →
  S !! "@result" = Some (JObject R) →
  (∀ k, is_Some (P !! k) → R !! k = None) →
  keywords doc run_id (default JNull (S !! "framework"))
    (default JNull (S !! "overall_score")) = Return preset →
  ((P ∪ R) !! "session" = None → (P ∪ R) !! "cls" = None →
   (create_from_report cls get_or_create session doc run_id).1
   = get_or_create ((P ∪ R) ∪ preset) session)
  ∧ (is_Some ((P ∪ R) !! "session") ∨ is_Some ((P ∪ R) !! "cls") →
     (create_from_report cls get_or_create session doc run_id).1
     = (Raise TypeError, session))
  ∧ (∀ k v, (P ∪ R) !! k = Some v → ((P ∪ R) ∪ preset) !! k = Some v)
  ∧ (∀ k, (P ∪ R) !! k = None → ((P ∪ R) ∪ preset) !! k = preset !! k).
Proof.
  intros Hj Hs HP HR Hno Hk.
  destruct (create_from_report_unfold cls get_or_create session doc run_id
              J S Hj Hs) as [log ->].
  rewrite Hk. cbv beta iota delta [fst].
  rewrite (from_report_no_collision doc (JObject J) S P R _ session Hj);
    [| by simpl; rewrite Hs | done | done | done].
  unfold partial_call. split_and!.
  - intros Hsession Hcls. rewrite decide_False; [done |].
    rewrite Hsession, Hcls. by intros [[? ?]|[? ?]].
  - intros Hbound. by rewrite decide_True.
  - intros k v Hv. by apply lookup_union_Some_l.
  - intros k Hnone. by apply lookup_union_r.
Qed.

Lemma preset_of_version (run_id : Z) (fw origin version os exit_code : json)
    (ru : string → json) :
  preset_of run_id fw origin version os exit_code ru !! "version" = Some version.
Proof. reflexivity. Qed.

Lemma preset_of_ru (run_id : Z) (fw origin version os exit_code : json)
    (ru : string → json) :
  Forall (λ f, preset_of run_id fw origin version os exit_code ru !! f
               = Some (ru f)) ru_fields.
Proof. repeat constructor. Qed.

(** X6. The [version] keyword is [stdout.version] when that is there and
    true; otherwise (missing, [None], empty string, zero) it is
    [job_log.script_sha256], and when that is missing too the call raises
    [KeyError('script_sha256')]. *)
Theorem keywords_version (doc spec origin : json) (J S : gmap string json)
    (run_id : Z) (fw os : json) :
  getitem doc "job_log" = Return (JObject J) →
  J !! "stdout" = Some (JObject S) →
  getitem doc "specification" = Return spec →
  getitem spec "script" = Return origin →
  (truthy (default JNull (S !! "version")) = true →
   ∀ preset, keywords doc run_id fw os = Return preset →
             preset !! "version" = Some (default JNull (S !! "version")))
  ∧ (truthy (default JNull (S !! "version")) = false →
     ∀ sha, J !! "script_sha256" = Some sha →
     ∀ preset, keywords doc run_id fw os = Return preset →
               preset !! "version" = Some sha)
  ∧ (truthy (default JNull (S !! "version")) = false →
     J !! "script_sha256" = None →
     keywords doc run_id fw os = Raise (KeyError "script_sha256")).
Proof.
  intros Hj Hs Hspec Horigin.
  rewrite (keywords_unfold doc J S run_id fw os Hj Hs), Hspec.
  cbv beta iota delta [mbind result_bind]. rewrite Horigin.
  cbv beta iota delta [getitem].
  split_and!; intros Hv.
  - rewrite Hv. intros preset.
    destruct (usage_values J) as [ru|]; [| discriminate].
    intros [= <-]. apply preset_of_version.
  - rewrite Hv. intros sha -> preset.
    destruct (usage_values J) as [ru|]; [| discriminate].
    intros [= <-]. apply preset_of_version.
  - rewrite Hv. by intros ->.
Qed.

(** X7. Without [usage] in [job_log] the sixteen [ru_*] keywords are all
    [None]; with a dict there, each is the entry of that name or [None];
    with anything else there (["usage": null], say) [create_from_report]
    raises and the session is untouched. *)
Theorem keywords_usage (cls : string)
    (get_or_create : @get_or_create_t Session Model) (session : Session)
    (doc : json) (J S : gmap string json) (run_id : Z) (fw os : json) :
  getitem doc "job_log" = Return (JObject J) →
  J !! "stdout" = Some (JObject S) →
  (J !! "usage" = None →
   ∀ preset, keywords doc run_id fw os = Return preset →
             Forall (λ f, preset !! f = Some JNull) ru_fields)
  ∧ (∀ U, J !! "usage" = Some (JObject U) →
     ∀ preset, keywords doc run_id fw os = Return preset →
               Forall (λ f, preset !! f = Some (default JNull (U !! f)))
                 ru_fields)
  ∧ (∀ u, J !! "usage" = Some u → (∀ U, u ≠ JObject U) →
     ∃ e log, create_from_report cls get_or_create session doc run_id
              = (Raise e, session, log)).
Proof.
  intros Hj Hs. split_and!.
  - intros Hu preset. rewrite (keywords_unfold doc J S run_id fw os Hj Hs).
    unfold usage_values. rewrite Hu.
    destruct (getitem doc "specification") as [spec|]; [| discriminate].
    cbv beta iota delta [mbind result_bind].
    destruct (getitem spec "script") as [origin|]; [| discriminate].
    match goal with |- context [if ?c then _ else _] => destruct c end;
      [| destruct (getitem (JObject J) "script_sha256"); [| discriminate]];
      intros [= <-];
      apply (preset_of_ru _ _ _ _ _ _ (λ _, JNull)).
  - intros U Hu preset. rewrite (keywords_unfold doc J S run_id fw os Hj Hs).
    unfold usage_values. rewrite Hu.
    destruct (getitem doc "specification") as [spec|]; [| discriminate].
    cbv beta iota delta [mbind result_bind].
    destruct (getitem spec "script") as [origin|]; [| discriminate].
    match goal with |- context [if ?c then _ else _] => destruct c end;
      [| destruct (getitem (JObject J) "script_sha256"); [| discriminate]];
      intros [= <-];
      apply (preset_of_ru _ _ _ _ _ _ (λ f, default JNull (U !! f))).
  - intros u Hu Hnot.
    destruct (create_from_report_unfold cls get_or_create session doc run_id
                J S Hj Hs) as [log ->].
    rewrite (keywords_unfold doc J S run_id _ _ Hj Hs).
    unfold usage_values. rewrite Hu.
    destruct (getitem doc "specification") as [spec|]; [| by eexists _, _].
    cbv beta iota delta [mbind result_bind].
    destruct (getitem spec "script") as [origin|]; [| by eexists _, _].
    match goal with |- context [if ?c then _ else _] => destruct c end;
      [| destruct (getitem (JObject J) "script_sha256"); [| by eexists _, _]];
      (destruct u as [| | | | | |U]; [.. | by destruct (Hnot U)]);
      by eexists _, _.
Qed.

(** X13. On a report whose [job_log] and [stdout] are dicts,
    [from_report] raises without calling the partial model, the session
    untouched, when [@parameters] or [@result] is missing ([KeyError]) or
    is not a dict ([AttributeError], there is no [items]); [@parameters] is
    looked at first. *)
Theorem from_report_malformed (doc : json) (J S : gmap string json)
    (partial_model : @partial Session Model) (db : Session) :
  getitem doc "job_log" = Return (JObject J) →
  J !! "stdout" = Some (JObject S) →
  (S !! "@parameters" = None →
   from_report doc partial_model db = (Raise (KeyError "@parameters"), db))
  ∧ (∀ v, S !! "@parameters" = Some v → (∀ P, v ≠ JObject P) →
     from_report doc partial_model db = (Raise (AttributeError "items"), db))
  ∧ (∀ P, S !! "@parameters" = Some (JObject P) → S !! "@result" = None →
     from_report doc partial_model db = (Raise (KeyError "@result"), db))
  ∧ (∀ P v, S !! "@parameters" = Some (JObject P) →
     S !! "@result" = Some v → (∀ R, v ≠ JObject R) →
     from_report doc partial_model db = (Raise (AttributeError "items"), db)).
Proof.
  intros Hj Hs. unfold from_report. rewrite Hj.
  cbv beta iota delta [mbind result_bind getitem]. rewrite Hs.
  cbv beta iota.
  split_and!.
  - by intros ->.
  - intros v -> Hv. destruct v as [| | | | | |P]; try done. by destruct (Hv P).
  - intros P -> ->. done.
  - intros P v -> -> Hv. cbv beta iota delta [items].
    destruct v as [| | | | | |R]; try done. by destruct (Hv R).
Qed.

(** X14. What [create_from_report] logs on a report whose [job_log] and
    [stdout] are dicts, whether or not it goes on to raise: a warning with
    the class name when [stdout.framework] is missing or false, then a
    warning when [stdout.overall_score] is missing or [None], whose
    argument is that [None] and not the class name. *)
Theorem create_from_report_log (cls : string)
    (get_or_create : @get_or_create_t Session Model) (session : Session)
    (doc : json) (run_id : Z) (J S : gmap string json) :
  getitem doc "job_log" = Return (JObject J) →
  J !! "stdout" = Some (JObject S) →
  (create_from_report cls get_or_create session doc run_id).2
  = ((if truthy (default JNull (S !! "framework")) then []
      else [(no_framework, JString cls)])
     ++ match default JNull (S !! "overall_score") with
        | JNull => [(no_overall_score, JNull)]
        | _ => []
        end)%list.
Proof.
  intros Hj Hs. unfold create_from_report. rewrite Hj.
  cbv beta iota delta [mbind result_bind getitem dict_get]. rewrite Hs.
  cbv beta iota.
  destruct (keywords _ _ _ _);
    cbv beta iota delta [snd]; unfold default, from_option, id;
    by destruct (S !! "overall_score") as [[| | | | | |]|].
Qed.

End CreateFromReportFacts.

(** The sample inspection document: [version] comes from
    [script_sha256], the [ru_*] keywords are [None]. *)
Lemma create_from_report_overrides_witness :
  ((Sample.matmul_parameters ∪ Sample.matmul_result) !! "session" = None →
   (Sample.matmul_parameters ∪ Sample.matmul_result) !! "cls" = None →
   (@PerformanceIndicator.create_from_report Sample.py_float
      (list (gmap string json)) (gmap string json)
      "PiMatmul" Sample.make_row [] Sample.inspection_document 7).1
   = Sample.make_row
       ((Sample.matmul_parameters ∪ Sample.matmul_result)
        ∪ Sample.inspection_preset) [])
  ∧ (is_Some ((Sample.matmul_parameters ∪ Sample.matmul_result) !! "session")
     ∨ is_Some ((Sample.matmul_parameters ∪ Sample.matmul_result) !! "cls") →
     (@PerformanceIndicator.create_from_report Sample.py_float
        (list (gmap string json)) (gmap string json)
        "PiMatmul" Sample.make_row [] Sample.inspection_document 7).1
     = (Raise TypeError, []))
  ∧ (∀ k v,
       (Sample.matmul_parameters ∪ Sample.matmul_result) !! k = Some v →
       ((Sample.matmul_parameters ∪ Sample.matmul_result)
        ∪ Sample.inspection_preset) !! k = Some v)
  ∧ (∀ k,
       (Sample.matmul_parameters ∪ Sample.matmul_result) !! k = None →
       ((Sample.matmul_parameters ∪ Sample.matmul_result)
        ∪ Sample.inspection_preset) !! k = Sample.inspection_preset !! k).
Proof.
  apply (@create_from_report_overrides Sample.py_float _ _ "PiMatmul"
           Sample.make_row [] Sample.inspection_document 7
           Sample.inspection_job_log Sample.inspection_stdout
           Sample.matmul_parameters Sample.matmul_result
           Sample.inspection_preset);
    try reflexivity.
  intros k [v Hk].
  destruct (decide (k = "matrix_size")) as [->|]; [reflexivity |].
  destruct (decide (k = "reps")) as [->|]; [reflexivity |].
  unfold Sample.matmul_parameters in Hk.
  rewrite lookup_insert_ne, lookup_singleton_ne in Hk by done. discriminate.
Defined.

(** The call on the sample document, and on one whose parameters name
    [session]. *)
Example create_from_report_sample :
  (@PerformanceIndicator.create_from_report Sample.py_float
     (list (gmap string json)) (gmap string json)
     "PiMatmul" Sample.make_row [] Sample.inspection_document 7).1
  = (Return ((Sample.matmul_parameters ∪ Sample.matmul_result)
             ∪ Sample.inspection_preset),
     [(Sample.matmul_parameters ∪ Sample.matmul_result)
      ∪ Sample.inspection_preset]).
Proof. reflexivity. Qed.

Example create_from_report_session_parameter :
  (@PerformanceIndicator.create_from_report Sample.py_float
     (list (gmap string json)) (gmap string json)
     "PiMatmul" Sample.make_row [] Sample.session_document 7).1
  = (Raise TypeError, []).
Proof. reflexivity. Qed.

Lemma keywords_version_witness :
  (@PerformanceIndicator.truthy Sample.py_float
     (default JNull (Sample.inspection_stdout !! "version")) = true →
   ∀ preset,
     @PerformanceIndicator.keywords Sample.py_float
       Sample.inspection_document 7 (JString "tensorflow") JNull
     = Return preset →
     preset !! "version"
     = Some (default JNull (Sample.inspection_stdout !! "version")))
  ∧ (@PerformanceIndicator.truthy Sample.py_float
       (default JNull (Sample.inspection_stdout !! "version")) = false →
     ∀ sha, Sample.inspection_job_log !! "script_sha256" = Some sha →
     ∀ preset,
       @PerformanceIndicator.keywords Sample.py_float
         Sample.inspection_document 7 (JString "tensorflow") JNull
       = Return preset →
       preset !! "version" = Some sha)
  ∧ (@PerformanceIndicator.truthy Sample.py_float
       (default JNull (Sample.inspection_stdout !! "version")) = false →
     Sample.inspection_job_log !! "script_sha256" = None →
     @PerformanceIndicator.keywords Sample.py_float
       Sample.inspection_document 7 (JString "tensorflow") JNull
     = Raise (KeyError "script_sha256")).
Proof.
  apply (@keywords_version Sample.py_float Sample.inspection_document
           Sample.inspection_specification
           (JString "https://example.com/matmul.py")
           Sample.inspection_job_log Sample.inspection_stdout);
    reflexivity.
Defined.

Example keywords_version_sample :
  @PerformanceIndicator.keywords Sample.py_float
    Sample.inspection_document 7 (JString "tensorflow") JNull
  = Return Sample.inspection_preset.
Proof. reflexivity. Qed.

(** The same document with ["usage": null]. *)
Lemma keywords_usage_witness :
  (Sample.null_usage_job_log !! "usage" = None →
   ∀ preset,
     @PerformanceIndicator.keywords Sample.py_float
       Sample.null_usage_document 7 (JString "tensorflow") JNull
     = Return preset →
     Forall (λ f, preset !! f = Some JNull) PerformanceIndicator.ru_fields)
  ∧ (∀ U, Sample.null_usage_job_log !! "usage" = Some (JObject U) →
     ∀ preset,
       @PerformanceIndicator.keywords Sample.py_float
         Sample.null_usage_document 7 (JString "tensorflow") JNull
       = Return preset →
       Forall (λ f, preset !! f = Some (default JNull (U !! f)))
         PerformanceIndicator.ru_fields)
  ∧ (∀ u, Sample.null_usage_job_log !! "usage" = Some u →
     (∀ U, u ≠ JObject U) →
     ∃ e log,
       @PerformanceIndicator.create_from_report Sample.py_float
         (list (gmap string json)) (gmap string json)
         "PiMatmul" Sample.make_row [] Sample.null_usage_document 7
       = (Raise e, [], log)).
Proof.
  apply (@keywords_usage Sample.py_float _ _ "PiMatmul" Sample.make_row []
           Sample.null_usage_document Sample.null_usage_job_log
           Sample.inspection_stdout);
    reflexivity.
Defined.

Example create_from_report_null_usage :
  @PerformanceIndicator.create_from_report Sample.py_float
    (list (gmap string json)) (gmap string json)
    "PiMatmul" Sample.make_row [] Sample.null_usage_document 7
  = (Raise (AttributeError "get"), [],
     [(PerformanceIndicator.no_overall_score, JNull)]).
Proof. reflexivity. Qed.

(** Four malformed reports: no [@parameters]; [@parameters] a list;
    no [@result]; ["@result": null]. *)
Lemma from_report_malformed_witness :
  Performance.from_report (Sample.report_with_stdout ∅) Sample.make_row []
  = (Raise (KeyError "@parameters"), [])
  ∧ Performance.from_report
      (Sample.report_with_stdout {[ "@parameters" := JArray [] ]})
      Sample.make_row []
    = (Raise (AttributeError "items"), [])
  ∧ Performance.from_report
      (Sample.report_with_stdout
         {[ "@parameters" := JObject Sample.matmul_parameters ]})
      Sample.make_row []
    = (Raise (KeyError "@result"), [])
  ∧ Performance.from_report
      (Sample.report_with_stdout
         {[ "@parameters" := JObject Sample.matmul_parameters;
            "@result" := JNull ]})
      Sample.make_row []
    = (Raise (AttributeError "items"), []).
Proof.
  split_and!.
  - apply (proj1 (from_report_malformed (Sample.report_with_stdout ∅)
                    _ _ Sample.make_row [] eq_refl eq_refl)).
    reflexivity.
  - apply (proj1 (proj2 (from_report_malformed
                           (Sample.report_with_stdout
                              {[ "@parameters" := JArray [] ]})
                           _ _ Sample.make_row [] eq_refl eq_refl))
             (JArray [])); [reflexivity | discriminate].
  - apply (proj1 (proj2 (proj2 (from_report_malformed
                           (Sample.report_with_stdout
                              {[ "@parameters" := JObject Sample.matmul_parameters ]})
                           _ _ Sample.make_row [] eq_refl eq_refl)))
             Sample.matmul_parameters); reflexivity.
  - apply (proj2 (proj2 (proj2 (from_report_malformed
                           (Sample.report_with_stdout
                              {[ "@parameters" := JObject Sample.matmul_parameters;
                                 "@result" := JNull ]})
                           _ _ Sample.make_row [] eq_refl eq_refl)))
             Sample.matmul_parameters JNull); [reflexivity | reflexivity | discriminate].
Defined.

Lemma create_from_report_log_witness :
  (@PerformanceIndicator.create_from_report Sample.py_float
     (list (gmap string json)) (gmap string json)
     "PiMatmul" Sample.make_row [] Sample.inspection_document 7).2
  = [(PerformanceIndicator.no_overall_score, JNull)].
Proof.
  apply (@create_from_report_log Sample.py_float _ _ "PiMatmul"
           Sample.make_row [] Sample.inspection_document 7
           Sample.inspection_job_log Sample.inspection_stdout);
    reflexivity.
Defined.

(** ** Unique tuples without nullable columns *)

Section MoreModelsFacts.
Import Models MoreModels.

Lemma admits_not_null (t : Table) (rows : list row) (cols : list string)
    (i : nat) (r : row) :
  admits t rows = true →
  all_not_null t cols = true →
  rows !! i = Some r →
  has_null (key_of cols r) = false.
Proof.
  intros Hadm Hcols Hi. unfold admits in Hadm.
  apply andb_true_iff in Hadm as [Hadm _].
  rewrite forallb_forall in Hadm.
  unfold all_not_null in Hcols. rewrite forallb_forall in Hcols.
  unfold has_null, key_of. apply not_true_iff_false. intros Hex.
  apply existsb_exists in Hex as (v & Hv & Hnone).
  apply list_elem_of_In, list_elem_of_fmap in Hv as (c & -> & Hc).
  apply list_elem_of_In, Hcols, existsb_exists in Hc as (column & Hin & Hcol).
  apply andb_true_iff in Hcol as [Hname Hnn].
  apply String.eqb_eq in Hname as <-. apply negb_true_iff in Hnn.
  destruct (not_null_holds rows column i r (Hadm column Hin) Hnn Hi) as [x Hx].
  by rewrite Hx in Hnone.
Qed.

(** In the rows a table admits, no two rows agree on a tuple that the
    table declares unique and whose columns are all NOT NULL. *)
Lemma admits_unique (t : Table) (rows : list row) (cols : list string)
    (i j : nat) (r1 r2 : row) :
  admits t rows = true →
  In (UniqueConstraint cols) (__table_args__ t) →
  all_not_null t cols = true →
  i ≠ j → rows !! i = Some r1 → rows !! j = Some r2 →
  key_of cols r1 ≠ key_of cols r2.
Proof.
  intros Hadm Hin Hnn Hij Hi Hj.
  apply (unique_on_lookup cols rows i j); try done.
  - unfold admits in Hadm. apply andb_true_iff in Hadm as [_ Hargs].
    rewrite forallb_forall in Hargs. apply (Hargs _ Hin).
  - by apply (admits_not_null t rows cols i).
Qed.

(** X8. [ecosystem_solver], [python_file_digest] and
    [python_package_index] declare a [UniqueConstraint] whose columns are
    all [nullable=False]: in any rows such a table admits, no two rows
    agree on (ecosystem, solver_name, solver_version, os_name, os_version,
    python_version), on [sha256], on [url] respectively. *)
Theorem unique_keys_without_null :
  (∀ rows i j r1 r2,
     admits EcosystemSolver rows = true →
     i ≠ j → rows !! i = Some r1 → rows !! j = Some r2 →
     key_of ecosystem_solver_key r1 ≠ key_of ecosystem_solver_key r2)
  ∧ (∀ rows i j r1 r2,
       admits PythonFileDigest rows = true →
       i ≠ j → rows !! i = Some r1 → rows !! j = Some r2 →
       r1 !! "sha256" ≠ r2 !! "sha256")
  ∧ (∀ rows i j r1 r2,
       admits PythonPackageIndex rows = true →
       i ≠ j → rows !! i = Some r1 → rows !! j = Some r2 →
       r1 !! "url" ≠ r2 !! "url").
Proof.
  split_and!; intros rows i j r1 r2 Hadm Hij Hi Hj.
  - apply (admits_unique EcosystemSolver rows _ i j); try done. by left.
  - intros Heq.
    apply (admits_unique PythonFileDigest rows ["sha256"] i j r1 r2);
      try done; [by left |].
    unfold key_of. simpl. by rewrite Heq.
  - intros Heq.
    apply (admits_unique PythonPackageIndex rows ["url"] i j r1 r2);
      try done; [by left |].
    unfold key_of. simpl. by rewrite Heq.
Qed.

End MoreModelsFacts.

(** ** What the revisions need and leave *)

Section MigrationFacts.
Import Alembic Migration.

Lemma tracks_nothing (s : indexes) : tracks nothing s s.
Proof.
  split; intros n; unfold patched; simpl.
  - by rewrite lookup_empty.
  - rewrite lookup_empty. by intros [? ?].
Qed.

Lemma summarize_keeps_needs (ops : list operation) (acc sm : summary)
    (n : string) (b : bool) :
  summarize ops acc = Some sm →
  (∀ n, is_Some (needs acc !! n) → is_Some (leaves acc !! n)) →
  needs acc !! n = Some b → needs sm !! n = Some b.
Proof.
  revert acc. induction ops as [|o ops IH]; intros acc Hsm Hdom Hn; simpl in Hsm.
  - by injection Hsm as <-.
  - destruct o as [m t cols u|m t];
      destruct (leaves acc !! m) as [[d|]|] eqn:Hm; try discriminate;
      (eapply IH; [exact Hsm | |]); simpl;
      try (intros n'; rewrite ?lookup_insert_is_Some; intros H;
           destruct (decide (m = n')); [by left | right; split; [done |]];
           first [apply Hdom; tauto | by apply Hdom]);
      try done.
    all: rewrite lookup_insert_ne; [done |];
      intros ->; destruct (Hdom n) as [? Hl]; [eauto | congruence].
Qed.

Lemma patched_insert (L : gmap string (option index)) (s0 : indexes)
    (m n : string) (o : option index) :
  patched (<[m := o]> L) s0 n = if decide (m = n) then o else patched L s0 n.
Proof.
  unfold patched. rewrite lookup_insert. by destruct (decide (m = n)).
Qed.

Lemma tracks_create (acc : summary) (s0 s : indexes) (m : string)
    (d : index) (N : gmap string bool) :
  tracks acc s0 s →
  (∀ n, is_Some (N !! n) → n = m ∨ is_Some (needs acc !! n)) →
  tracks {| needs := N; leaves := <[m := Some d]> (leaves acc) |} s0
    (<[m := d]> s).
Proof.
  intros [Hs Hdom] HN. split; simpl.
  - intros n. rewrite patched_insert, lookup_insert.
    destruct (decide (m = n)); [done | apply Hs].
  - intros n Hn. rewrite lookup_insert_is_Some.
    destruct (decide (m = n)); [by left | right; split; [done |]].
    destruct (HN n Hn) as [->|Hn']; [done | by apply Hdom].
Qed.

Lemma tracks_drop (acc : summary) (s0 s : indexes) (m : string)
    (N : gmap string bool) :
  tracks acc s0 s →
  (∀ n, is_Some (N !! n) → n = m ∨ is_Some (needs acc !! n)) →
  tracks {| needs := N; leaves := <[m := None]> (leaves acc) |} s0
    (delete m s).
Proof.
  intros [Hs Hdom] HN. split; simpl.
  - intros n. rewrite patched_insert, lookup_delete.
    destruct (decide (m = n)); [done | apply Hs].
  - intros n Hn. rewrite lookup_insert_is_Some.
    destruct (decide (m = n)); [by left | right; split; [done |]].
    destruct (HN n Hn) as [->|Hn']; [done | by apply Hdom].
Qed.

Lemma needs_insert (N : gmap string bool) (m n : string) (b : bool) :
  is_Some (<[m := b]> N !! n) → n = m ∨ is_Some (N !! n).
Proof.
  rewrite lookup_insert_is_Some. intros [->|[_ Hn]]; auto.
Qed.

(** A run returns exactly on the schemas that meet its needs, and then
    leaves the schema that its summary describes. *)
Lemma summarize_run (ops : list operation) (acc sm : summary)
    (s0 s : indexes) :
  summarize ops acc = Some sm →
  tracks acc s0 s →
  meets s0 (needs acc) →
  (meets s0 (needs sm) → ∃ s', run ops s = Return s' ∧ tracks sm s0 s')
  ∧ (¬ meets s0 (needs sm) → raises (run ops s)).
Proof.
  revert acc s. induction ops as [|o ops IH]; intros acc s Hsm Htr Hmeets;
    simpl in Hsm.
  - injection Hsm as <-. split; [by exists s | done].
  - pose proof Htr as [Hs Hdom].
    destruct o as [m t cols u|m t]; simpl;
      destruct (leaves acc !! m) as [[d|]|] eqn:Hm; try discriminate.
    + (* create, after a drop by this run *)
      assert (s !! m = None) as -> by (rewrite Hs; unfold patched; by rewrite Hm).
      simpl. eapply IH; [exact Hsm | | done].
      apply tracks_create; [done | auto].
    + (* create, first sight of the name *)
      assert (s !! m = s0 !! m) as Hsm0 by (rewrite Hs; unfold patched; by rewrite Hm).
      set (acc' := {| needs := <[m := false]> (needs acc);
                      leaves := <[m := Some {| table := t; on_columns := cols;
                                               unique := u |}]> (leaves acc) |}).
      assert (needs sm !! m = Some false) as Hneed.
      { apply (summarize_keeps_needs ops acc'); [done | | apply lookup_insert_eq].
        intros n Hn%needs_insert. simpl. rewrite lookup_insert_is_Some.
        destruct (decide (m = n)); [by left | right; split; [done |]].
        destruct Hn as [->|Hn]; [done | by apply Hdom]. }
      rewrite Hsm0. destruct (s0 !! m) as [d0|] eqn:Hs0; simpl.
      * split; [| done]. intros Hall. apply Hall in Hneed.
        unfold present in Hneed. rewrite Hs0 in Hneed.
        by apply bool_decide_eq_false in Hneed as [].
      * eapply IH; [exact Hsm | |].
        -- apply tracks_create; [done | intros n; apply needs_insert].
        -- simpl. apply map_Forall_insert_2; [| done].
           unfold present. rewrite Hs0. apply bool_decide_eq_false. by intros [? ?].
    + (* drop, after a create by this run *)
      assert (s !! m = Some d) as -> by (rewrite Hs; unfold patched; by rewrite Hm).
      simpl. eapply IH; [exact Hsm | | done].
      apply tracks_drop; [done | auto].
    + (* drop, first sight of the name *)
      assert (s !! m = s0 !! m) as Hsm0 by (rewrite Hs; unfold patched; by rewrite Hm).
      set (acc' := {| needs := <[m := true]> (needs acc);
                      leaves := <[m := None]> (leaves acc) |}).
      assert (needs sm !! m = Some true) as Hneed.
      { apply (summarize_keeps_needs ops acc'); [done | | apply lookup_insert_eq].
        intros n Hn%needs_insert. simpl. rewrite lookup_insert_is_Some.
        destruct (decide (m = n)); [by left | right; split; [done |]].
        destruct Hn as [->|Hn]; [done | by apply Hdom]. }
      rewrite Hsm0. destruct (s0 !! m) as [d0|] eqn:Hs0; simpl.
      * eapply IH; [exact Hsm | |].
        -- apply tracks_drop; [done | intros n; apply needs_insert].
        -- simpl. apply map_Forall_insert_2; [| done].
           unfold present. rewrite Hs0. apply bool_decide_eq_true. eauto.
      * split; [| done]. intros Hall. apply Hall in Hneed.
        unfold present in Hneed. rewrite Hs0 in Hneed.
        by apply bool_decide_eq_true in Hneed as [? ?].
Qed.

Lemma run_summary (ops : list operation) (sm : summary) (s : indexes) :
  summarize ops nothing = Some sm →
  (returns (run ops s) ↔ meets s (needs sm))
  ∧ (∀ s', run ops s = Return s' → ∀ n, s' !! n = patched (leaves sm) s n).
Proof.
  intros Hsm.
  destruct (summarize_run ops nothing sm s s Hsm (tracks_nothing s))
    as [Hyes Hno]; [apply map_Forall_empty |].
  destruct (decide (meets s (needs sm))) as [Hm|Hm].
  - destruct (Hyes Hm) as (s1 & Hrun & [Hs1 _]). rewrite Hrun. simpl.
    split; [done |]. by intros s' [= <-].
  - specialize (Hno Hm). destruct (run ops s); [done |]. split; [| done].
    simpl. split; [done | by intros ?%Hm].
Qed.

Lemma meets_expects (new old s : indexes) :
  meets s (expects new old)
  ↔ dom old ⊆ dom s
    ∧ ∀ n, is_Some (new !! n) → old !! n = None → s !! n = None.
Proof.
  unfold meets, expects, present. rewrite map_Forall_lookup. split.
  - intros Hall. split.
    + intros n [d Hd]%elem_of_dom. apply elem_of_dom.
      eapply bool_decide_eq_true, (Hall n true).
      apply lookup_union_Some_l. by rewrite lookup_fmap, Hd.
    + intros n [d Hd] Ho.
      assert (bool_decide (is_Some (s !! n)) = false) as Hn.
      { apply Hall. rewrite lookup_union_r by (by rewrite lookup_fmap, Ho).
        by rewrite lookup_fmap, lookup_difference, Ho, Hd. }
      apply bool_decide_eq_false in Hn. destruct (s !! n); [| done].
      by destruct Hn.
  - intros [Hold Hnew] n b.
    rewrite lookup_union, !lookup_fmap, lookup_difference.
    destruct (old !! n) as [d|] eqn:Ho; simpl.
    + intros [= <-]. apply bool_decide_eq_true, elem_of_dom, Hold, elem_of_dom.
      eauto.
    + destruct (new !! n) as [d|] eqn:Hn; simpl; [| done].
      intros [= <-]. apply bool_decide_eq_false.
      rewrite (Hnew n) by eauto. by intros [? ?].
Qed.

Lemma patched_replaces (new old s : indexes) (n : string) :
  patched (replaces new old) s n = (new ∪ s ∖ old) !! n.
Proof.
  unfold patched, replaces.
  rewrite !lookup_union, !lookup_fmap, lookup_difference.
  by destruct (new !! n), (old !! n), (s !! n).
Qed.

(** A run whose summary is [replacing new old]: where it returns and what
    it returns. *)
Lemma run_replacing (ops : list operation) (new old s : indexes) :
  summarize ops nothing = Some (replacing new old) →
  (returns (run ops s)
   ↔ dom old ⊆ dom s
     ∧ ∀ n, is_Some (new !! n) → old !! n = None → s !! n = None)
  ∧ (∀ s', run ops s = Return s' → s' = new ∪ s ∖ old).
Proof.
  intros Hsm. destruct (run_summary ops _ s Hsm) as [Hiff Hres]. split.
  - by rewrite Hiff, <- meets_expects.
  - intros s' Hrun. apply map_eq. intros n.
    rewrite (Hres s' Hrun). apply patched_replaces.
Qed.

Lemma returns_inv {A} (r : result A) : returns r → ∃ a, r = Return a.
Proof. destruct r; [eauto | done]. Qed.

(** After a run of the first script, the second and then the first again
    give the same schema back. *)
Lemma there_and_back (up down : list operation) (new old s s' : indexes) :
  summarize up nothing = Some (replacing new old) →
  summarize down nothing = Some (replacing old new) →
  run up s = Return s' →
  run down s' ≫= run up = Return s'.
Proof.
  intros Hup Hdown Hrun.
  destruct (run_replacing up new old s Hup) as [Hrs Hs'].
  assert (returns (run up s)) as Hret by (by rewrite Hrun).
  apply Hrs in Hret as [Hold Hfree]. apply Hs' in Hrun as ->.
  destruct (run_replacing down old new (new ∪ s ∖ old) Hdown) as [Hd Hd'].
  destruct (returns_inv (run down (new ∪ s ∖ old))) as [s1 Hs1].
  { apply Hd. split.
    - intros n Hn. apply elem_of_dom. apply elem_of_dom in Hn as [d Hn].
      exists d. by apply lookup_union_Some_l.
    - intros n [d Hn] Hnew. rewrite lookup_union, Hnew, lookup_difference, Hn.
      done. }
  rewrite Hs1. simpl. pose proof (Hd' s1 Hs1) as ->.
  destruct (run_replacing up new old (old ∪ (new ∪ s ∖ old) ∖ new) Hup)
    as [Hu Hu'].
  destruct (returns_inv (run up (old ∪ (new ∪ s ∖ old) ∖ new))) as [s2 Hs2].
  { apply Hu. split.
    - intros n Hn. apply elem_of_dom. apply elem_of_dom in Hn as [d Hn].
      exists d. by apply lookup_union_Some_l.
    - intros n [d Hn] Ho.
      by rewrite lookup_union, Ho, lookup_difference, Hn. }
  rewrite Hs2. f_equal. rewrite (Hu' s2 Hs2). apply map_eq. intros n.
  repeat (rewrite lookup_union || rewrite lookup_difference).
  by destruct (new !! n), (old !! n), (s !! n).
Qed.

(** A script that makes or removes at least one index cannot run twice in
    a row. *)
Lemma not_twice (ops : list operation) (new old s s' : indexes) (n : string) :
  summarize ops nothing = Some (replacing new old) →
  (is_Some (new !! n) ∧ old !! n = None)
  ∨ (is_Some (old !! n) ∧ new !! n = None) →
  run ops s = Return s' →
  raises (run ops s').
Proof.
  intros Hsm Hn Hrun.
  destruct (run_replacing ops new old s Hsm) as [_ Hs'].
  apply Hs' in Hrun as ->.
  destruct (run_replacing ops new old (new ∪ s ∖ old) Hsm) as [Hiff _].
  destruct (run ops (new ∪ s ∖ old)) as [s2|e]; [| done].
  destruct Hiff as [[Hold Hfree] _]; [done |].
  destruct Hn as [[[d Hd] Ho]|[[d Hd] Hnew]].
  - specialize (Hfree n (ex_intro _ d Hd) Ho).
    rewrite lookup_union, Hd in Hfree. by destruct ((s ∖ old) !! n).
  - assert (n ∈ dom (new ∪ s ∖ old)) as Hin.
    { apply Hold, elem_of_dom. eauto. }
    apply elem_of_dom in Hin as [x Hx].
    by rewrite lookup_union, Hnew, lookup_difference, Hd in Hx.
Qed.

Lemma b91c_upgrade_summary :
  summarize Rev_b91c11e75551.upgrade nothing
  = Some (replacing Rev_b91c11e75551.after Rev_b91c11e75551.before).
Proof. compute_done. Qed.

Lemma b91c_downgrade_summary :
  summarize Rev_b91c11e75551.downgrade nothing
  = Some (replacing Rev_b91c11e75551.before Rev_b91c11e75551.after).
Proof. compute_done. Qed.

Lemma rev79e1_upgrade_summary :
  summarize Rev_79e1d320db3d.upgrade nothing
  = Some (replacing depends_on_version_id_idx ∅).
Proof. compute_done. Qed.

Lemma rev79e1_downgrade_summary :
  summarize Rev_79e1d320db3d.downgrade nothing
  = Some (replacing ∅ depends_on_version_id_idx).
Proof. compute_done. Qed.

Lemma b91c_only_after (n : string) :
  is_Some (Rev_b91c11e75551.after !! n) ∧ Rev_b91c11e75551.before !! n = None
  ↔ n = Rev_b91c11e75551.idx "00".
Proof.
  assert (Rev_b91c11e75551.after ∖ Rev_b91c11e75551.before
          = {[ Rev_b91c11e75551.idx "00" :=
                 Rev_b91c11e75551.plain
                   [Rev_b91c11e75551.pn; Rev_b91c11e75551.pv] ]}) as Hd
    by compute_done.
  split.
  - intros [[d Hd1] Hd2].
    assert ((Rev_b91c11e75551.after ∖ Rev_b91c11e75551.before) !! n = Some d) as Hn
      by (by rewrite lookup_difference, Hd2).
    rewrite Hd in Hn. by apply lookup_singleton_Some in Hn as [<- _].
  - intros ->. compute_done.
Qed.

Lemma b91c_only_before (n : string) :
  is_Some (Rev_b91c11e75551.before !! n) ∧ Rev_b91c11e75551.after !! n = None
  ↔ n ∈ dropped_for_good.
Proof.
  assert (dom (Rev_b91c11e75551.before ∖ Rev_b91c11e75551.after)
          = list_to_set dropped_for_good) as Hd
    by compute_done.
  rewrite <- (elem_of_list_to_set (C := gset string)), <- Hd, elem_of_dom,
    lookup_difference.
  destruct (Rev_b91c11e75551.after !! n).
  - split; [intros [_ ?]; discriminate | intros [? ?]; discriminate].
  - split; [intros [? _]; assumption | intros ?; split; [assumption | reflexivity]].
Qed.

(** X9. [upgrade()] of revision [b91c11e75551] runs exactly on the schemas
    that have every index of [before] (under any definition) and no index
    [python_package_version_index_idx_00]; it then leaves the eight indexes
    of [after], none of the other names of [before], and every other index
    of the schema as it was. *)
Theorem b91c_upgrade_runs (s : indexes) :
  (returns (run Rev_b91c11e75551.upgrade s)
   ↔ dom Rev_b91c11e75551.before ⊆ dom s
     ∧ s !! Rev_b91c11e75551.idx "00" = None)
  ∧ (∀ s', run Rev_b91c11e75551.upgrade s = Return s' →
           s' = Rev_b91c11e75551.after ∪ s ∖ Rev_b91c11e75551.before).
Proof.
  destruct (run_replacing _ _ _ s b91c_upgrade_summary) as [Hiff Hres].
  split; [| done]. rewrite Hiff. split; intros [Hdom Hfree]; (split; [done |]).
  - apply Hfree; by apply (b91c_only_after (Rev_b91c11e75551.idx "00")).
  - intros n Hn Hb. by rewrite (proj1 (b91c_only_after n) (conj Hn Hb)).
Qed.

(** X10. [downgrade()] of revision [b91c11e75551] runs exactly on the
    schemas that have every index of [after] (under any definition) and
    none of the eight indexes that [upgrade()] drops for good; it then
    leaves the fifteen indexes of [before], no index
    [python_package_version_index_idx_00], and every other index as it
    was. *)
Theorem b91c_downgrade_runs (s : indexes) :
  (returns (run Rev_b91c11e75551.downgrade s)
   ↔ dom Rev_b91c11e75551.after ⊆ dom s
     ∧ Forall (λ n, s !! n = None) dropped_for_good)
  ∧ (∀ s', run Rev_b91c11e75551.downgrade s = Return s' →
           s' = Rev_b91c11e75551.before ∪ s ∖ Rev_b91c11e75551.after).
Proof.
  destruct (run_replacing _ _ _ s b91c_downgrade_summary) as [Hiff Hres].
  split; [| done]. rewrite Hiff, Forall_forall.
  split; intros [Hdom Hfree]; (split; [done |]).
  - intros n [Hn Ha]%b91c_only_before. by apply Hfree.
  - intros n Hn Ha. apply Hfree, b91c_only_before. by split.
Qed.

(** X11. On a schema that one script of a revision has just produced, the
    other script and then the first one again give that schema back: the
    round trip is exact from the second run on, for both revisions and in
    both directions. *)
Theorem revisions_there_and_back :
  (∀ s s', run Rev_79e1d320db3d.upgrade s = Return s' →
     run Rev_79e1d320db3d.downgrade s' ≫= run Rev_79e1d320db3d.upgrade
     = Return s')
  ∧ (∀ s s', run Rev_79e1d320db3d.downgrade s = Return s' →
       run Rev_79e1d320db3d.upgrade s' ≫= run Rev_79e1d320db3d.downgrade
       = Return s')
  ∧ (∀ s s', run Rev_b91c11e75551.upgrade s = Return s' →
       run Rev_b91c11e75551.downgrade s' ≫= run Rev_b91c11e75551.upgrade
       = Return s')
  ∧ (∀ s s', run Rev_b91c11e75551.downgrade s = Return s' →
       run Rev_b91c11e75551.upgrade s' ≫= run Rev_b91c11e75551.downgrade
       = Return s').
Proof.
  split_and!; intros s s'.
  - apply (there_and_back _ _ _ _ s s' rev79e1_upgrade_summary
             rev79e1_downgrade_summary).
  - apply (there_and_back _ _ _ _ s s' rev79e1_downgrade_summary
             rev79e1_upgrade_summary).
  - apply (there_and_back _ _ _ _ s s' b91c_upgrade_summary
             b91c_downgrade_summary).
  - apply (there_and_back _ _ _ _ s s' b91c_downgrade_summary
             b91c_upgrade_summary).
Qed.

(** X12. No script of the two revisions runs twice in a row: on the schema
    that a script has produced, the same script raises. *)
Theorem revisions_not_rerunnable :
  (∀ s s', run Rev_79e1d320db3d.upgrade s = Return s' →
           raises (run Rev_79e1d320db3d.upgrade s'))
  ∧ (∀ s s', run Rev_79e1d320db3d.downgrade s = Return s' →
             raises (run Rev_79e1d320db3d.downgrade s'))
  ∧ (∀ s s', run Rev_b91c11e75551.upgrade s = Return s' →
             raises (run Rev_b91c11e75551.upgrade s'))
  ∧ (∀ s s', run Rev_b91c11e75551.downgrade s = Return s' →
             raises (run Rev_b91c11e75551.downgrade s')).
Proof.
  split_and!; intros s s'.
  - apply (not_twice _ _ _ s s' "depends_on_version_id_idx"
             rev79e1_upgrade_summary).
    left. compute_done.
  - apply (not_twice _ _ _ s s' "depends_on_version_id_idx"
             rev79e1_downgrade_summary).
    right. compute_done.
  - apply (not_twice _ _ _ s s' (Rev_b91c11e75551.idx "00")
             b91c_upgrade_summary).
    left. compute_done.
  - apply (not_twice _ _ _ s s' (Rev_b91c11e75551.idx "00")
             b91c_downgrade_summary).
    right. compute_done.
Qed.

End MigrationFacts.

Lemma b91c_upgrade_runs_witness :
  Rev_b91c11e75551.after
  = Rev_b91c11e75551.after ∪ Sample.odd_indexes ∖ Rev_b91c11e75551.before.
Proof.
  apply (proj2 (b91c_upgrade_runs Sample.odd_indexes)).
  compute_done.
Defined.

Lemma b91c_downgrade_runs_witness :
  Rev_b91c11e75551.before
  = Rev_b91c11e75551.before
    ∪ Rev_b91c11e75551.after ∖ Rev_b91c11e75551.after.
Proof.
  apply (proj2 (b91c_downgrade_runs Rev_b91c11e75551.after)).
  compute_done.
Defined.

Lemma revisions_there_and_back_witness :
  Alembic.run Rev_b91c11e75551.downgrade Rev_b91c11e75551.after
  ≫= Alembic.run Rev_b91c11e75551.upgrade
  = Return Rev_b91c11e75551.after.
Proof.
  apply (proj1 (proj2 (proj2 revisions_there_and_back)) Sample.odd_indexes).
  compute_done.
Defined.

Lemma revisions_not_rerunnable_witness :
  raises (Alembic.run Rev_b91c11e75551.upgrade Rev_b91c11e75551.after).
Proof.
  apply (proj1 (proj2 (proj2 revisions_not_rerunnable)) Sample.odd_indexes).
  compute_done.
Defined.
